(** * Truncation utilities of the network-capture extension

    A shallow embedding of [src/utils/truncate.ts] and the properties its
    specification states about it.

    Conventions of the embedding.
    - A JavaScript string is the list of its UTF-16 code units; [length]
      and [slice] of the source count code units, and so do [length],
      [firstn] and [skipn] here.
    - A JavaScript number that holds an integer (a string length, a
      truncation budget, a byte count) is a [Z].  A budget is a
      non-negative integer and a byte count a non-negative integer below
      2^53; on these every number the source computes is an integer below
      2^53, where the arithmetic of doubles is exact and a number prints
      as its decimal digits.  The theorems need no such bound and are
      stated for every [Z].
    - The numbers inside a JSON document are never inspected by the
      source; their type is a parameter.
    - An object is the ordered list of its own properties, and the
      assignment [result[key] = value] is [obj_set].
    - [JSON.parse] and [JSON.stringify] are host built-ins, not code of
      this repository: they are parameters of [truncateResponseBody].
    - An exception is [None].  Inside the [try] block of
      [truncateResponseBody] three things can throw: [JSON.parse] on a
      text that is not JSON, the recursive walk when the value is nested
      deeper than the engine's call stack allows, and [JSON.stringify].
      How deep the stack reaches is the engine's matter and a parameter
      too. *)

From Stdlib Require Import ZArith NArith List Bool Lia Ascii String Decimal DecimalN.
From Stdlib Require DecimalFacts DecimalPos.
Import ListNotations.

Local Open Scope Z_scope.

(* ================================================================== *)
(** * JavaScript strings *)
(* ================================================================== *)

Definition codeunit := N.
Definition jsstring := list codeunit.

(** A source-code string literal (ASCII only in this file). *)
Definition lit (s : string) : jsstring :=
  List.map N_of_ascii (list_ascii_of_string s).

Definition str_length (s : jsstring) : Z := Z.of_nat (List.length s).

Definition codeunit_eqb (a b : codeunit) : bool := N.eqb a b.
Arguments codeunit_eqb (a b)%_N.

Fixpoint jsstring_eqb (a b : jsstring) : bool :=
  match a, b with
  | [], [] => true
  | x :: a', y :: b' => codeunit_eqb x y && jsstring_eqb a' b'
  | _, _ => false
  end.

(** [String.prototype.slice(start, end)]: negative positions count from
    the end, both positions are clamped to the string, and an empty
    string results when [end] does not exceed [start]. *)
Definition slice (s : jsstring) (start end_ : Z) : jsstring :=
  let len := str_length s in
  let from := if start <? 0 then Z.max (len + start) 0 else Z.min start len in
  let to := if end_ <? 0 then Z.max (len + end_) 0 else Z.min end_ len in
  let span := Z.max (to - from) 0 in
  firstn (Z.to_nat span) (skipn (Z.to_nat from) s).

(** ** Decimal digits *)

Fixpoint uint_units (d : uint) : jsstring :=
  match d with
  | Nil => []
  | D0 d => 48%N :: uint_units d
  | D1 d => 49%N :: uint_units d
  | D2 d => 50%N :: uint_units d
  | D3 d => 51%N :: uint_units d
  | D4 d => 52%N :: uint_units d
  | D5 d => 53%N :: uint_units d
  | D6 d => 54%N :: uint_units d
  | D7 d => 55%N :: uint_units d
  | D8 d => 56%N :: uint_units d
  | D9 d => 57%N :: uint_units d
  end.

(** [Number::toString] (radix 10) on an integer-valued number: the
    decimal digits without leading zeros, ["0"] for zero and a leading
    minus sign for a negative number. *)
Definition Number_toString (z : Z) : jsstring :=
  match z with
  | Z0 => uint_units (N.to_uint 0)
  | Zpos p => uint_units (N.to_uint (Npos p))
  | Zneg p => 45%N :: uint_units (N.to_uint (Npos p))
  end.

(* ================================================================== *)
(** * truncateString *)
(* ================================================================== *)

Module TruncateResult.
Record t : Type := mk
  { value : jsstring;
    truncated : bool;
    originalLength : Z }.
End TruncateResult.

Record TruncateOptions : Type := mkOptions
  { maxStringLength : option Z }.

Definition DEFAULT_MAX_STRING_LENGTH : Z := 500.

(** The marker of the template literal [`...[+${remaining} chars]`]. *)
Definition indicator (remaining : Z) : jsstring :=
  lit "...[+" ++ Number_toString remaining ++ lit " chars]".

Definition truncateString (str : jsstring) (maxLength : Z) : TruncateResult.t :=
  if str_length str <=? maxLength then
    TruncateResult.mk str false (str_length str)
  else
    let remaining := str_length str - maxLength in
    let indicatorLength := str_length (indicator remaining) in
    let truncateAt := Z.max 0 (maxLength - indicatorLength) in
    let truncatedValue := slice str 0 truncateAt ++ indicator remaining in
    TruncateResult.mk truncatedValue true (str_length str).

(** The default parameter [maxLength = DEFAULT_MAX_STRING_LENGTH]. *)
Definition truncateString_default (str : jsstring) : TruncateResult.t :=
  truncateString str DEFAULT_MAX_STRING_LENGTH.

(** [options?.maxStringLength ?? DEFAULT_MAX_STRING_LENGTH]. *)
Definition resolve_maxStringLength (options : option TruncateOptions) : Z :=
  match options with
  | Some o =>
      match maxStringLength o with
      | Some m => m
      | None => DEFAULT_MAX_STRING_LENGTH
      end
  | None => DEFAULT_MAX_STRING_LENGTH
  end.

(* ================================================================== *)
(** * JavaScript objects as ordered property lists *)
(* ================================================================== *)

(** An ordinary object is the list of its own enumerable string-keyed
    properties, in the order [Object.entries] lists them: array-index
    keys first, in ascending numeric order, then all other keys in the
    order they were created. *)
Definition props (V : Type) : Type := list (jsstring * V).

Definition digit_of (c : codeunit) : option (uint -> uint) :=
  if codeunit_eqb c 48%N then Some D0 else
  if codeunit_eqb c 49%N then Some D1 else
  if codeunit_eqb c 50%N then Some D2 else
  if codeunit_eqb c 51%N then Some D3 else
  if codeunit_eqb c 52%N then Some D4 else
  if codeunit_eqb c 53%N then Some D5 else
  if codeunit_eqb c 54%N then Some D6 else
  if codeunit_eqb c 55%N then Some D7 else
  if codeunit_eqb c 56%N then Some D8 else
  if codeunit_eqb c 57%N then Some D9 else None.

Fixpoint units_uint (s : jsstring) : option uint :=
  match s with
  | [] => Some Nil
  | c :: s' =>
      match digit_of c, units_uint s' with
      | Some d, Some u => Some (d u)
      | _, _ => None
      end
  end.

(** A property key is an array index when it is the canonical decimal
    spelling of an integer below 2^32 - 1. *)
Definition array_index (k : jsstring) : option N :=
  match units_uint k with
  | Some d =>
      let n := N.of_uint d in
      if jsstring_eqb (uint_units (N.to_uint n)) k && (n <? 4294967295)%N
      then Some n else None
  | None => None
  end.

Definition proto_key : jsstring := lit "__proto__".

Section Props.
Context {V : Type}.

Definition has_key (k : jsstring) (o : props V) : bool :=
  existsb (fun kv => jsstring_eqb (fst kv) k) o.

(** Writing an existing own property keeps its position. *)
Definition obj_update (k : jsstring) (v : V) (o : props V) : props V :=
  List.map (fun kv => if jsstring_eqb (fst kv) k then (k, v) else kv) o.

(** A new array-index key goes in numeric order among the index keys. *)
Fixpoint obj_insert_index (i : N) (k : jsstring) (v : V) (o : props V) : props V :=
  match o with
  | [] => [(k, v)]
  | kv :: rest =>
      match array_index (fst kv) with
      | Some j => if (j <? i)%N then kv :: obj_insert_index i k v rest
                  else (k, v) :: o
      | None => (k, v) :: o
      end
  end.

(** The assignment [result[key] = value] on an object whose prototype
    is [Object.prototype].  An own property is overwritten in place.
    Otherwise the key ["__proto__"] reaches the accessor inherited from
    [Object.prototype], whose setter changes (or ignores) the prototype
    and creates no own property; every other key creates one. *)
Definition obj_set (o : props V) (k : jsstring) (v : V) : props V :=
  if has_key k o then obj_update k v o
  else if jsstring_eqb k proto_key then o
  else match array_index k with
       | Some i => obj_insert_index i k v o
       | None => o ++ [(k, v)]
       end.
End Props.

(* ================================================================== *)
(** * truncateJsonValues *)
(* ================================================================== *)

Section Json.
(** The numbers of a JSON document are doubles; the code never looks
    inside one, so their type is left open. *)
Variable number : Type.

Unset Elimination Schemes.
Inductive JValue : Type :=
| JUndefined : JValue
| JNull : JValue
| JBool : bool -> JValue
| JNumber : number -> JValue
| JString : jsstring -> JValue
| JArray : list JValue -> JValue
| JObject : props JValue -> JValue.
Set Elimination Schemes.

Fixpoint truncateJsonValues (obj : JValue) (options : option TruncateOptions)
  {struct obj} : JValue :=
  let maxStringLength := resolve_maxStringLength options in
  match obj with
  | JNull | JUndefined => obj
  | JString s => JString (TruncateResult.value (truncateString s maxStringLength))
  | JNumber _ | JBool _ => obj
  | JArray l => JArray (List.map (fun item => truncateJsonValues item options) l)
  | JObject o =>
      JObject (fold_left
                 (fun result kv =>
                    obj_set result (fst kv) (truncateJsonValues (snd kv) options))
                 o [])
  end.
End Json.

Arguments JUndefined {number}.
Arguments JNull {number}.
Arguments JBool {number} _.
Arguments JNumber {number} _.
Arguments JString {number} _.
Arguments JArray {number} _.
Arguments JObject {number} _.
Arguments truncateJsonValues {number} obj options.

(* ================================================================== *)
(** * formatBinarySize *)
(* ================================================================== *)

(** [(num / den).toFixed(1)] for a quotient the double holds exactly
    (here [den] is a power of two).  [toFixed] picks the integer [n]
    with [n / 10] nearest to the number, the larger one on a tie, and
    prints it with a point before its last digit. *)
Definition toFixed1 (num den : Z) : jsstring :=
  let sign := if num <? 0 then [45%N] else [] in
  let x := Z.abs num in
  let n := (2 * 10 * x + den) / (2 * den) in
  sign ++ Number_toString (n / 10) ++ lit "." ++ Number_toString (n mod 10).

Definition formatBinarySize (bytes : Z) : jsstring :=
  if bytes <? 1024 then
    lit "[Binary data: " ++ Number_toString bytes ++ lit " B]"
  else if bytes <? 1024 * 1024 then
    lit "[Binary data: " ++ toFixed1 bytes 1024 ++ lit " KB]"
  else
    lit "[Binary data: " ++ toFixed1 bytes (1024 * 1024) ++ lit " MB]".

(* ================================================================== *)
(** * isBase64Binary *)
(* ================================================================== *)

Definition in_range (lo hi c : N) : bool := ((lo <=? c) && (c <=? hi))%N.
Arguments in_range (lo hi c)%_N.

(** The class [\s]: the white space and line terminator code points. *)
Definition is_whitespace (c : codeunit) : bool :=
  in_range 9 13 c || codeunit_eqb c 32 || codeunit_eqb c 160
  || codeunit_eqb c 5760 || in_range 8192 8202 c
  || codeunit_eqb c 8232 || codeunit_eqb c 8233 || codeunit_eqb c 8239
  || codeunit_eqb c 8287 || codeunit_eqb c 12288 || codeunit_eqb c 65279.

(** The class [[+/=]]. *)
Definition is_base64_mark (c : codeunit) : bool :=
  codeunit_eqb c 43 || codeunit_eqb c 47 || codeunit_eqb c 61.

(** The class [[A-Za-z0-9+/]]. *)
Definition is_base64_letter (c : codeunit) : bool :=
  in_range 65 90 c || in_range 97 122 c || in_range 48 57 c
  || codeunit_eqb c 43 || codeunit_eqb c 47.

Definition is_equals (c : codeunit) : bool := codeunit_eqb c 61.

Fixpoint drop_while (p : codeunit -> bool) (s : jsstring) : jsstring :=
  match s with
  | [] => []
  | c :: s' => if p c then drop_while p s' else s
  end.

(** [/^[A-Za-z0-9+/]+=*$/.test(s)].  The two classes are disjoint, so
    the match is the longest run of letters, at least one, followed by
    equals signs up to the end of the string. *)
Definition base64Pattern_test (s : jsstring) : bool :=
  match s with
  | [] => false
  | c :: _ => is_base64_letter c && forallb is_equals (drop_while is_base64_letter s)
  end.

Definition isBase64Binary (str : jsstring) : bool :=
  if str_length str <? 100 then false
  else
    let cleaned := filter (fun c => negb (is_whitespace c)) str in
    if negb (str_length cleaned mod 4 =? 0) then false
    else
      let hasBase64Chars := existsb is_base64_mark cleaned in
      if negb hasBase64Chars then false
      else
        let sample := slice cleaned 0 1000 in
        base64Pattern_test sample.

(* ================================================================== *)
(** * truncateResponseBody *)
(* ================================================================== *)

Inductive BodyKind : Type := Json | Binary | Text.

Module ResponseBody.
Record t : Type := mk
  { body : jsstring;
    truncated : bool;
    originalLength : Z;
    type : BodyKind }.
End ResponseBody.

(** A step of a [try] block: [None] when it throws, and then the rest
    of the block is skipped. *)
Definition and_then {A B : Type} (step : option A) (rest : A -> option B)
  : option B :=
  match step with
  | Some a => rest a
  | None => None
  end.

Notation "x <- step ;; rest" := (and_then step (fun x => rest))
  (at level 61, step at next level, right associativity).

Section ResponseBodySection.
Variable number : Type.
(** [JSON.parse(body)]: [None] stands for the [SyntaxError] it throws. *)
Variable JSON_parse : jsstring -> option (JValue number).
(** [JSON.stringify(value, null, 2)]: [None] when it throws a
    [RangeError] (call stack, string length), and when it returns
    [undefined], whose [length] the source then reads inside the [try]. *)
Variable JSON_stringify : JValue number -> option jsstring.
(** Whether the engine's call stack suffices for the recursive walk of
    a value; when it does not, [truncateJsonValues] throws a
    [RangeError]. *)
Variable stack_suffices : JValue number -> bool.

Definition truncateResponseBody (body : jsstring) (base64Encoded : bool)
  (options : option TruncateOptions) : ResponseBody.t :=
  let maxStringLength := resolve_maxStringLength options in
  if base64Encoded || isBase64Binary body then
    let estimatedBytes := (str_length body * 3) / 4 in
    ResponseBody.mk (formatBinarySize estimatedBytes) true (str_length body) Binary
  else
    let try_block :=
      parsed <- JSON_parse body ;;
      truncated <-
        (if stack_suffices parsed
         then Some (truncateJsonValues parsed
                      (Some (mkOptions (Some maxStringLength))))
         else None) ;;
      truncatedBody <- JSON_stringify truncated ;;
      originalFormatted <- JSON_stringify parsed ;;
      Some (ResponseBody.mk truncatedBody
              (str_length truncatedBody <? str_length originalFormatted)
              (str_length body) Json) in
    match try_block with
    | Some returned => returned
    | None =>
        let result := truncateString body maxStringLength in
        ResponseBody.mk (TruncateResult.value result)
          (TruncateResult.truncated result)
          (TruncateResult.originalLength result) Text
    end.
End ResponseBodySection.

Arguments truncateResponseBody {number} JSON_parse JSON_stringify stack_suffices
  body base64Encoded options.

(* ================================================================== *)
(** * truncateNetworkEntry and truncateHeaders *)
(* ================================================================== *)

Section Entries.
Variable number : Type.

(** The fields of the interface; an optional field is [None] when absent
    or [undefined].  Whatever further properties an entry of a subtype
    carries, the spread [...entry] copies as they are. *)
Record NetworkEntryForTruncation : Type := mkEntry
  { requestId : jsstring;
    method : jsstring;
    url : jsstring;
    status : option number;
    statusText : option jsstring;
    mimeType : option jsstring;
    resourceType : jsstring;
    timestamp : number;
    completed : bool;
    error : option jsstring }.

(** [field ? truncateString(field, max).value : field]: the empty
    string is falsy, like [undefined]. *)
Definition truncate_if_truthy (field : option jsstring) (maxLength : Z)
  : option jsstring :=
  match field with
  | Some (c :: s) => Some (TruncateResult.value (truncateString (c :: s) maxLength))
  | Some [] => Some []
  | None => None
  end.

Definition truncateNetworkEntry (entry : NetworkEntryForTruncation)
  (options : option TruncateOptions) : NetworkEntryForTruncation :=
  let maxStringLength := resolve_maxStringLength options in
  {| requestId := requestId entry;
     method := method entry;
     url := TruncateResult.value (truncateString (url entry) maxStringLength);
     status := status entry;
     statusText := truncate_if_truthy (statusText entry) maxStringLength;
     mimeType := mimeType entry;
     resourceType := resourceType entry;
     timestamp := timestamp entry;
     completed := completed entry;
     error := truncate_if_truthy (error entry) maxStringLength |}.
End Entries.

Arguments requestId {number} _.
Arguments method {number} _.
Arguments url {number} _.
Arguments status {number} _.
Arguments statusText {number} _.
Arguments mimeType {number} _.
Arguments resourceType {number} _.
Arguments timestamp {number} _.
Arguments completed {number} _.
Arguments error {number} _.
Arguments truncateNetworkEntry {number} entry options.

Definition truncateHeaders (headers : props jsstring)
  (options : option TruncateOptions) : props jsstring :=
  let maxStringLength := resolve_maxStringLength options in
  fold_left
    (fun result kv =>
       obj_set result (fst kv)
         (TruncateResult.value (truncateString (snd kv) maxStringLength)))
    headers [].

(* ================================================================== *)
(** * Vocabulary of the specification *)
(* ================================================================== *)

(** The definitions of this part are not code of [truncate.ts]: they
    give the specification's words a meaning on the embedding. *)

(** ** Reading a marker back *)

Definition is_digit (c : codeunit) : bool := in_range 48 57 c.

Fixpoint take_while (p : codeunit -> bool) (s : jsstring) : jsstring :=
  match s with
  | [] => []
  | c :: s' => if p c then c :: take_while p s' else []
  end.

Fixpoint strip_prefix (p s : jsstring) : option jsstring :=
  match p, s with
  | [], _ => Some s
  | x :: p', y :: s' => if codeunit_eqb x y then strip_prefix p' s' else None
  | _ :: _, [] => None
  end.

(** The text [v] ends with a marker ["...[+N chars]"]: [read_marker v] is
    the number of code units in front of the marker together with the
    integer [N] the marker spells.  The text is read from its end, so a
    marker-like run inside the kept prefix is not mistaken for it. *)
Definition read_marker (v : jsstring) : option (nat * Z) :=
  match strip_prefix (List.rev (lit " chars]")) (List.rev v) with
  | Some r1 =>
      let ds := take_while is_digit r1 in
      match ds, strip_prefix (List.rev (lit "...[+")) (drop_while is_digit r1),
            units_uint (List.rev ds) with
      | _ :: _, Some r2, Some d => Some (List.length r2, Z.of_N (N.of_uint d))
      | _, _, _ => None
      end
  | None => None
  end.

(** "The marker encodes the exact count of removed characters": the
    integer of the marker is the original length minus the number of
    code units of the input kept in front of the marker. *)
Definition marker_counts_removed (s : jsstring) (b : Z) : Prop :=
  exists (kept : nat) (n : Z),
    read_marker (TruncateResult.value (truncateString s b)) = Some (kept, n) /\
    n = TruncateResult.originalLength (truncateString s b) - Z.of_nat kept.

(** The ASCII letters and digits, [[A-Za-z0-9]]. *)
Definition is_alphanumeric (c : codeunit) : bool :=
  in_range 48 57 c || in_range 65 90 c || in_range 97 122 c.

(** ** Own-property lists of real objects *)

Definition keys {V : Type} (o : props V) : list jsstring := List.map fst o.

(** [keys_in_order lo ks]: the keys follow the engine's enumeration
    order.  [lo = Some n] while array-index keys may still come, the
    next one being at least [n]; [lo = None] once a non-index key was
    seen. *)
Fixpoint keys_in_order (lo : option N) (ks : list jsstring) : bool :=
  match ks with
  | [] => true
  | k :: rest =>
      match array_index k, lo with
      | Some i, Some n => (n <=? i)%N && keys_in_order (Some (i + 1)%N) rest
      | Some _, None => false
      | None, _ => keys_in_order None rest
      end
  end.

Fixpoint keys_distinct (ks : list jsstring) : bool :=
  match ks with
  | [] => true
  | k :: rest => negb (existsb (jsstring_eqb k) rest) && keys_distinct rest
  end.

(** The key list of an object as any JavaScript object has it. *)
Definition own_keys_wf (ks : list jsstring) : bool :=
  keys_distinct ks && keys_in_order (Some 0%N) ks.

Definition no_proto_key (ks : list jsstring) : bool :=
  forallb (fun k => negb (jsstring_eqb k proto_key)) ks.

(** The keys [ks] are array indices, all of them below what [lo] still
    admits: the state of an object under construction while the keys of
    a well-formed object are written into it one by one. *)
Definition index_keys_below (lo : option N) (ks : list jsstring) : Prop :=
  match lo with
  | Some n => Forall (fun k => exists j, array_index k = Some j /\ (j < n)%N) ks
  | None => True
  end.

(** The real object key lists without a key ["__proto__"]. *)
Definition plain_keys (ks : list jsstring) : bool :=
  own_keys_wf ks && no_proto_key ks.

Section JsonVocabulary.
Context {number : Type}.

(** Every mapping inside [v] satisfies [p] on its key list. *)
Fixpoint all_objects (p : list jsstring -> bool) (v : JValue number) : bool :=
  match v with
  | JArray l => forallb (all_objects p) l
  | JObject o => p (keys o) && forallb (fun kv => all_objects p (snd kv)) o
  | _ => true
  end.

(** Every string leaf inside [v] satisfies [p]. *)
Fixpoint all_strings (p : jsstring -> bool) (v : JValue number) : bool :=
  match v with
  | JString s => p s
  | JArray l => forallb (all_strings p) l
  | JObject o => forallb (fun kv => all_strings p (snd kv)) o
  | _ => true
  end.

Definition within_budget (maxLength : Z) (s : jsstring) : bool :=
  str_length s <=? maxLength.

(** [truncation_of m v w]: [w] has the shape of [v] (every mapping the
    same keys in the same order, every sequence the same length and
    order, every non-string scalar the same) and each string leaf of
    [w] is the truncation to [m] of the leaf of [v] at its place. *)
Unset Elimination Schemes.
Inductive truncation_of (m : Z) : JValue number -> JValue number -> Prop :=
| tr_undefined : truncation_of m JUndefined JUndefined
| tr_null : truncation_of m JNull JNull
| tr_bool : forall b, truncation_of m (JBool b) (JBool b)
| tr_number : forall n, truncation_of m (JNumber n) (JNumber n)
| tr_string : forall s,
    truncation_of m (JString s)
      (JString (TruncateResult.value (truncateString s m)))
| tr_array : forall l l',
    Forall2 (truncation_of m) l l' ->
    truncation_of m (JArray l) (JArray l')
| tr_object : forall o o',
    Forall2 (fun kv kv' => fst kv = fst kv' /\ truncation_of m (snd kv) (snd kv'))
      o o' ->
    truncation_of m (JObject o) (JObject o').
Set Elimination Schemes.
End JsonVocabulary.

(** A header map and its truncation: same names in the same order, each
    value truncated on its own. *)
Definition headers_truncation_of (m : Z) (h h' : props jsstring) : Prop :=
  Forall2 (fun kv kv' =>
             fst kv = fst kv' /\
             snd kv' = TruncateResult.value (truncateString (snd kv) m))
    h h'.

(* ================================================================== *)
(** * The host's JSON built-ins, for the examples *)
(* ================================================================== *)

(** [truncateResponseBody] takes [JSON.parse], [JSON.stringify] and the
    reach of the call stack as parameters.  The examples instantiate
    them: [JSON.parse] by its value at the one body an example is about,
    [JSON.stringify] by the serialisation algorithm of ECMA-262 with a
    two-space indent, and the stack by a bound on the nesting depth. *)

Definition parse_at {number : Type} (body : jsstring) (parsed : JValue number)
  : jsstring -> option (JValue number) :=
  fun s => if jsstring_eqb s body then Some parsed else None.

Definition hex_digit (n : N) : codeunit :=
  if (n <? 10)%N then (48 + n)%N else (87 + n)%N.

(** A backslash, [u] and four lower-case hexadecimal digits. *)
Definition unicode_escape (c : codeunit) : jsstring :=
  [92%N; 117%N;
   hex_digit ((c / 4096) mod 16)%N; hex_digit ((c / 256) mod 16)%N;
   hex_digit ((c / 16) mod 16)%N; hex_digit (c mod 16)%N].

Fixpoint quote_units (s : jsstring) : jsstring :=
  match s with
  | [] => []
  | c :: s' =>
      if codeunit_eqb c 8 then 92%N :: 98%N :: quote_units s'
      else if codeunit_eqb c 9 then 92%N :: 116%N :: quote_units s'
      else if codeunit_eqb c 10 then 92%N :: 110%N :: quote_units s'
      else if codeunit_eqb c 12 then 92%N :: 102%N :: quote_units s'
      else if codeunit_eqb c 13 then 92%N :: 114%N :: quote_units s'
      else if codeunit_eqb c 34 then 92%N :: 34%N :: quote_units s'
      else if codeunit_eqb c 92 then 92%N :: 92%N :: quote_units s'
      else if (c <? 32)%N then unicode_escape c ++ quote_units s'
      else if in_range 55296 56319 c then
        match s' with
        | d :: s'' =>
            if in_range 56320 57343 d then c :: d :: quote_units s''
            else unicode_escape c ++ quote_units s'
        | [] => unicode_escape c
        end
      else if in_range 56320 57343 c then unicode_escape c ++ quote_units s'
      else c :: quote_units s'
  end.

(** [QuoteJSONString]. *)
Definition quote_json_string (s : jsstring) : jsstring :=
  34%N :: quote_units s ++ [34%N].

Fixpoint join (sep : jsstring) (parts : list jsstring) : jsstring :=
  match parts with
  | [] => []
  | [p] => p
  | p :: rest => p ++ sep ++ join sep rest
  end.

Section Stringify.
Context {number : Type}.
(** The text emitted for a number. *)
Variable number_text : number -> jsstring.

Definition gap : jsstring := lit "  ".

(** [SerializeJSONProperty]; [None] is [undefined]. *)
Fixpoint serialize (indent : jsstring) (v : JValue number) : option jsstring :=
  let inner := indent ++ gap in
  let separator := 44%N :: 10%N :: inner in
  match v with
  | JUndefined => None
  | JNull => Some (lit "null")
  | JBool true => Some (lit "true")
  | JBool false => Some (lit "false")
  | JNumber n => Some (number_text n)
  | JString s => Some (quote_json_string s)
  | JArray l =>
      let partial :=
        List.map (fun x => match serialize inner x with
                           | Some t => t
                           | None => lit "null"
                           end) l in
      match partial with
      | [] => Some (lit "[]")
      | _ => Some (lit "[" ++ 10%N :: inner ++ join separator partial
                   ++ 10%N :: indent ++ lit "]")
      end
  | JObject o =>
      let partial :=
        List.flat_map
          (fun kv => match serialize inner (snd kv) with
                     | Some t => [quote_json_string (fst kv) ++ lit ": " ++ t]
                     | None => []
                     end) o in
      match partial with
      | [] => Some (lit "{}")
      | _ => Some (lit "{" ++ 10%N :: inner ++ join separator partial
                   ++ 10%N :: indent ++ lit "}")
      end
  end.
End Stringify.

(** [JSON.stringify(value, null, 2)] for documents whose numbers are
    integers; [None] is its result [undefined]. *)
Definition stringify_integers : JValue Z -> option jsstring :=
  serialize Number_toString [].

Section Depth.
Context {number : Type}.

(** How deep sequences and mappings are nested inside a value. *)
Fixpoint nesting_depth (v : JValue number) : nat :=
  match v with
  | JArray l => S (fold_right (fun item d => Nat.max (nesting_depth item) d) 0%nat l)
  | JObject o =>
      S (fold_right (fun kv d => Nat.max (nesting_depth (snd kv)) d) 0%nat o)
  | _ => 0%nat
  end.

(** An engine whose stack carries the walk of values nested at most a
    thousand deep and of no others. *)
Definition stack_of_1000 (v : JValue number) : bool :=
  (nesting_depth v <=? 1000)%nat.
End Depth.

(* ================================================================== *)
(** * Example inputs *)
(* ================================================================== *)

(** ['a'.repeat(n)]. *)
Definition a_repeat (n : nat) : jsstring := repeat 97%N n.

(** [btoa('x'.repeat(100))], the detector's positive test case. *)
Definition btoa_x100 : jsstring :=
  List.concat (repeat (lit "eHh4") 33) ++ lit "eA==".

(** The value of [JSON.parse('{"a":"x","__proto__":"y"}')]: [JSON.parse]
    creates ["__proto__"] as an ordinary own property. *)
Definition proto_object : JValue Z :=
  JObject [(lit "a", JString (lit "x")); (proto_key, JString (lit "y"))].

(** A header map with a header named [__proto__]. *)
Definition proto_headers : props jsstring :=
  [(lit "accept", lit "*/*"); (proto_key, lit "x")].

(** The body [{"short":"value"}] of the tests, and its parsed value. *)
Definition short_value_body : jsstring :=
  lit "{" ++ quote_json_string (lit "short") ++ lit ":"
    ++ quote_json_string (lit "value") ++ lit "}".

Definition short_value : JValue Z :=
  JObject [(lit "short", JString (lit "value"))].

(** The JSON text [1e+1] followed by 96 spaces; [JSON.parse] reads the
    number 10 from it. *)
Definition exponent_body : jsstring := lit "1e+1" ++ repeat 32%N 96.

(** The entry of the test "should handle optional fields", with a
    timestamp in place of [Date.now()]. *)
Definition ok_entry : NetworkEntryForTruncation Z :=
  {| requestId := lit "123";
     method := lit "GET";
     url := lit "https://example.com";
     status := Some 200;
     statusText := Some (lit "OK");
     mimeType := None;
     resourceType := lit "Document";
     timestamp := 1700000000000;
     completed := true;
     error := None |}.

(** The body [{"a":"x","__proto__":"y"}], which parses to [proto_object]. *)
Definition proto_body : jsstring :=
  lit "{" ++ quote_json_string (lit "a") ++ lit ":" ++ quote_json_string (lit "x")
    ++ lit "," ++ quote_json_string proto_key ++ lit ":"
    ++ quote_json_string (lit "y") ++ lit "}".

(** The value of the specification's end-to-end property:
    [{"data": "a" x 1000, "nested": {"field": "b" x 700}}]. *)
Definition nested_value : JValue Z :=
  JObject [(lit "data", JString (a_repeat 1000));
           (lit "nested", JObject [(lit "field", JString (repeat 98%N 700))])].

(** A string JavaScript can hold: fewer than 2^53 code units. *)
Definition holdable (s : jsstring) : bool := str_length s <? 2 ^ 53.

(** The string with its white space removed, as [isBase64Binary] cleans
    it: [str.replace(/\s/g, '')]. *)
Definition without_whitespace (s : jsstring) : jsstring :=
  filter (fun c => negb (is_whitespace c)) s.

(** A thousand plus signs followed by four units outside the base64
    alphabet. *)
Definition plus_then_garbage : jsstring := repeat 43%N 1000 ++ lit "<<<<".

(** The letters and the padding of [btoa_x100]. *)
Definition btoa_x100_letters : jsstring :=
  List.concat (repeat (lit "eHh4") 33) ++ lit "eA".

(** The length of an optional text field, 0 when it is missing. *)
Definition field_length (field : option jsstring) : Z :=
  match field with
  | Some s => str_length s
  | None => 0
  end.

(** [JSON.stringify] of [short_value] with a two-space indent: an
    opening brace, the one member on a line of its own, a closing
    brace. *)
Definition short_value_text : jsstring :=
  lit "{" ++ [10%N] ++ lit "  " ++ quote_json_string (lit "short") ++ lit ": "
    ++ quote_json_string (lit "value") ++ [10%N] ++ lit "}".

(** Five thousand opening brackets followed by five thousand closing
    ones, and the value [JSON.parse] reads from them: empty sequences
    nested five thousand deep. *)
Definition deep_body : jsstring := repeat 91%N 5000 ++ repeat 93%N 5000.

Definition deep_value : JValue Z :=
  Nat.iter 4999 (fun v => JArray [v]) (JArray []).

(* ================================================================== *)
(** * Strings, digits and markers *)
(* ================================================================== *)

Lemma codeunit_eqb_eq (a b : codeunit) : codeunit_eqb a b = true <-> a = b.
Proof. unfold codeunit_eqb. apply N.eqb_eq. Qed.

Lemma jsstring_eqb_eq (a b : jsstring) : jsstring_eqb a b = true <-> a = b.
Proof.
  revert b. induction a as [|x a IH]; intros [|y b]; simpl; split;
    try discriminate; try reflexivity.
  - intros H. apply andb_true_iff in H as [Hx Hab].
    apply codeunit_eqb_eq in Hx. apply IH in Hab. congruence.
  - intros [= -> ->]. apply andb_true_iff. split.
    + now apply codeunit_eqb_eq.
    + now apply IH.
Qed.

Lemma jsstring_eqb_refl (a : jsstring) : jsstring_eqb a a = true.
Proof. now apply jsstring_eqb_eq. Qed.

Lemma jsstring_eqb_neq (a b : jsstring) : jsstring_eqb a b = false <-> a <> b.
Proof.
  split.
  - intros H E. apply jsstring_eqb_eq in E. congruence.
  - intros H. destruct (jsstring_eqb a b) eqn:E; [|reflexivity].
    apply jsstring_eqb_eq in E. contradiction.
Qed.

Lemma str_length_app (a b : jsstring) :
  str_length (a ++ b) = str_length a + str_length b.
Proof. unfold str_length. rewrite length_app. lia. Qed.

Lemma str_length_nonneg (s : jsstring) : 0 <= str_length s.
Proof. unfold str_length. lia. Qed.

(** [slice(0, e)] with a non-negative [e] is the prefix of [e] units. *)
Lemma slice_from_start (s : jsstring) (e : Z) :
  0 <= e -> slice s 0 e = firstn (Z.to_nat e) s.
Proof.
  intros He. unfold slice. cbn [Z.ltb Z.compare].
  destruct (Z.ltb_spec e 0) as [Hneg|_]; [lia|].
  pose proof (str_length_nonneg s) as Hlen.
  rewrite (Z.min_l 0 (str_length s)) by lia.
  cbn [Z.to_nat skipn]. rewrite Z.sub_0_r.
  rewrite (Z.max_l _ 0) by lia.
  destruct (Z.le_ge_cases e (str_length s)) as [Hle|Hge].
  - now rewrite Z.min_l by lia.
  - rewrite Z.min_r by lia. unfold str_length in *.
    rewrite Nat2Z.id. rewrite !firstn_all2; trivial; lia.
Qed.

Lemma units_uint_uint_units (d : uint) : units_uint (uint_units d) = Some d.
Proof. induction d; cbn; rewrite ?IHd; reflexivity. Qed.

Lemma uint_units_digits (d : uint) : forallb is_digit (uint_units d) = true.
Proof. induction d; cbn; trivial. Qed.

Lemma uint_units_nonempty (n : N) : uint_units (N.to_uint n) <> [].
Proof.
  intros H.
  assert (E : N.to_uint n = Nil) by (destruct (N.to_uint n); now try discriminate).
  pose proof (DecimalN.Unsigned.of_to n) as R. rewrite E in R. cbn in R.
  subst n. discriminate E.
Qed.

Lemma Number_toString_nonneg (n : Z) :
  0 <= n -> Number_toString n = uint_units (N.to_uint (Z.to_N n)).
Proof. destruct n; intros H; try reflexivity. lia. Qed.

Lemma strip_prefix_app (p s : jsstring) : strip_prefix p (p ++ s) = Some s.
Proof.
  induction p as [|x p IH]; cbn; [reflexivity|].
  unfold codeunit_eqb. now rewrite N.eqb_refl.
Qed.

Lemma while_app (p : codeunit -> bool) (l r : jsstring) :
  forallb p l = true ->
  match r with [] => True | c :: _ => p c = false end ->
  take_while p (l ++ r) = l /\ drop_while p (l ++ r) = r.
Proof.
  intros Hl Hr. induction l as [|x l IH]; cbn in *.
  - destruct r as [|c r]; cbn; [now split|]. now rewrite Hr.
  - apply andb_true_iff in Hl as [Hx Hl]. rewrite Hx.
    destruct (IH Hl) as [-> ->]. now split.
Qed.

Lemma forallb_rev (p : codeunit -> bool) (l : jsstring) :
  forallb p l = true -> forallb p (List.rev l) = true.
Proof.
  rewrite !forallb_forall. intros H x Hx. apply H. now apply in_rev.
Qed.

(** A marker that follows any prefix is read back exactly. *)
Lemma read_marker_indicator (p : jsstring) (n : Z) :
  0 <= n -> read_marker (p ++ indicator n) = Some (List.length p, n).
Proof.
  intros Hn. unfold read_marker, indicator.
  rewrite (Number_toString_nonneg n Hn).
  set (ds := uint_units (N.to_uint (Z.to_N n))).
  rewrite !rev_app_distr, <- !app_assoc, strip_prefix_app.
  assert (Hds : forallb is_digit (List.rev ds) = true)
    by (apply forallb_rev, uint_units_digits).
  destruct (while_app is_digit (List.rev ds)
              (List.rev (lit "...[+") ++ List.rev p) Hds) as [Ht Hd];
    [reflexivity|].
  cbv zeta. rewrite Ht, Hd, strip_prefix_app.
  destruct (List.rev ds) as [|c r] eqn:E.
  - exfalso. apply (uint_units_nonempty (Z.to_N n)). fold ds.
    rewrite <- (rev_involutive ds), E. reflexivity.
  - rewrite <- E, rev_involutive. unfold ds.
    rewrite units_uint_uint_units, length_rev, DecimalN.Unsigned.of_to, Z2N.id by lia.
    reflexivity.
Qed.

(** The marker is never empty: it has at least the twelve fixed units
    and one digit. *)
Lemma indicator_length (n : Z) : 13 <= str_length (indicator n).
Proof.
  unfold indicator. rewrite !str_length_app.
  change (str_length (lit "...[+")) with 5.
  change (str_length (lit " chars]")) with 7.
  enough (1 <= str_length (Number_toString n)) by lia.
  unfold str_length.
  assert (H : forall m, (1 <= List.length (uint_units (N.to_uint m)))%nat).
  { intros m. pose proof (uint_units_nonempty m).
    destruct (uint_units (N.to_uint m)); [contradiction|cbn; lia]. }
  destruct n; cbn [Number_toString].
  - specialize (H 0%N). lia.
  - specialize (H (Npos p)). lia.
  - specialize (H (Npos p)). cbn [List.length]. lia.
Qed.

(* ================================================================== *)
(** * truncateString *)
(* ================================================================== *)

Lemma truncateString_else (s : jsstring) (b : Z) :
  str_length s > b ->
  truncateString s b =
  TruncateResult.mk
    (slice s 0 (Z.max 0 (b - str_length (indicator (str_length s - b))))
       ++ indicator (str_length s - b))
    true (str_length s).
Proof.
  intros H. unfold truncateString.
  destruct (Z.leb_spec (str_length s) b); [lia|reflexivity].
Qed.

Lemma truncateString_then (s : jsstring) (b : Z) :
  str_length s <= b ->
  truncateString s b = TruncateResult.mk s false (str_length s).
Proof.
  intros H. unfold truncateString.
  destruct (Z.leb_spec (str_length s) b); [reflexivity|lia].
Qed.

(** The kept prefix of a truncated string and the marker behind it. *)
Lemma truncateString_else_parts (s : jsstring) (b : Z) :
  str_length s > b ->
  let cut := Z.max 0 (b - str_length (indicator (str_length s - b))) in
  slice s 0 cut = firstn (Z.to_nat cut) s /\
  Z.of_nat (List.length (slice s 0 cut)) = cut /\
  read_marker (TruncateResult.value (truncateString s b))
  = Some (List.length (slice s 0 cut), str_length s - b).
Proof.
  intros H cut.
  assert (Hcut : slice s 0 cut = firstn (Z.to_nat cut) s)
    by (apply slice_from_start; unfold cut; lia).
  split; [exact Hcut|]. split.
  - pose proof (indicator_length (str_length s - b)) as Hm.
    rewrite Hcut, length_firstn. unfold str_length in *. unfold cut. lia.
  - rewrite (truncateString_else s b H). cbn [TruncateResult.value]. fold cut.
    apply read_marker_indicator. lia.
Qed.

(** C2.  A string no longer than the budget comes back unchanged, with
    [truncated = false] and its own length as [originalLength]. *)
Theorem truncateString_within_budget (s : jsstring) (b : Z) :
  str_length s <= b ->
  truncateString s b = TruncateResult.mk s false (str_length s).
Proof. exact (truncateString_then s b). Qed.

Lemma truncateString_within_budget_witness :
  str_length (lit "hello world") <= 500 /\
  truncateString (lit "hello world") 500 =
  TruncateResult.mk (lit "hello world") false 11.
Proof.
  split; [vm_compute; discriminate|].
  apply (truncateString_within_budget (lit "hello world") 500).
  vm_compute; discriminate.
Defined.

(** C1.  A string longer than the budget [b] is reported truncated with
    its original length, and its value is [slice(s, 0, max(0, b - |marker|))]
    followed by the marker ["...[+N chars]"], whose integer [N] is
    exactly [length(s) - b]. *)
Theorem truncateString_over_budget (s : jsstring) (b : Z) :
  str_length s > b ->
  let N := str_length s - b in
  let marker := lit "...[+" ++ Number_toString N ++ lit " chars]" in
  let cut := Z.max 0 (b - str_length marker) in
  TruncateResult.truncated (truncateString s b) = true /\
  TruncateResult.originalLength (truncateString s b) = str_length s /\
  TruncateResult.value (truncateString s b) = slice s 0 cut ++ marker /\
  slice s 0 cut = firstn (Z.to_nat cut) s /\
  read_marker (TruncateResult.value (truncateString s b))
  = Some (List.length (slice s 0 cut), N).
Proof.
  intros H N marker cut.
  destruct (truncateString_else_parts s b H) as (Hcut & _ & Hread).
  rewrite (truncateString_else s b H) in *.
  cbn [TruncateResult.truncated TruncateResult.originalLength TruncateResult.value] in *.
  repeat split; assumption.
Qed.

Lemma truncateString_over_budget_witness :
  str_length (a_repeat 600) > 100 /\
  TruncateResult.value (truncateString (a_repeat 600) 100)
  = a_repeat 85 ++ lit "...[+500 chars]" /\
  read_marker (TruncateResult.value (truncateString (a_repeat 600) 100))
  = Some (85%nat, 500).
Proof.
  assert (H : str_length (a_repeat 600) > 100) by (vm_compute; reflexivity).
  destruct (truncateString_over_budget (a_repeat 600) 100 H)
    as (_ & _ & Hv & _ & Hm).
  split; [exact H|]. split.
  - rewrite Hv. vm_compute. reflexivity.
  - rewrite Hm. vm_compute. reflexivity.
Defined.

(** C5 as worded fails: of the twenty units of ['a'.repeat(20)] a budget
    of 15 keeps two and removes eighteen, while the marker reads 5. *)
Lemma marker_counts_removed_counterexample :
  str_length (a_repeat 20) > 15 /\
  TruncateResult.value (truncateString (a_repeat 20) 15) = lit "aa...[+5 chars]" /\
  ~ marker_counts_removed (a_repeat 20) 15.
Proof.
  split; [vm_compute; reflexivity|]. split; [vm_compute; reflexivity|].
  intros (kept & n & Hread & Hn).
  assert (E : read_marker (TruncateResult.value (truncateString (a_repeat 20) 15))
              = Some (2%nat, 5)) by (vm_compute; reflexivity).
  rewrite E in Hread. injection Hread as <- <-.
  vm_compute in Hn. discriminate Hn.
Qed.

(** C5, amended.  The marker's integer is [length(s) - b], the excess of
    the input over the budget.  The kept prefix has [max(0, b - |marker|)]
    units, so for a budget [b >= 0] the number of removed units is the
    marker's integer plus [min(b, |marker|)]: room for the marker is taken
    out of the budget. *)
Theorem marker_encodes_excess (s : jsstring) (b : Z) :
  str_length s > b ->
  let marker := indicator (str_length s - b) in
  exists kept : nat,
    read_marker (TruncateResult.value (truncateString s b))
    = Some (kept, str_length s - b) /\
    Z.of_nat kept = Z.max 0 (b - str_length marker) /\
    (0 <= b ->
     str_length s - Z.of_nat kept
     = (str_length s - b) + Z.min b (str_length marker)).
Proof.
  intros H marker.
  destruct (truncateString_else_parts s b H) as (_ & Hk & Hread).
  fold marker in Hk, Hread.
  exists (List.length (slice s 0 (Z.max 0 (b - str_length marker)))).
  split; [exact Hread|]. split; [exact Hk|].
  pose proof (indicator_length (str_length s - b)) as Hm. fold marker in Hm.
  intros Hb. rewrite Hk. lia.
Qed.

Lemma marker_encodes_excess_witness :
  str_length (a_repeat 600) > 100 /\
  exists kept : nat,
    read_marker (TruncateResult.value (truncateString (a_repeat 600) 100))
    = Some (kept, 500) /\
    Z.of_nat kept = 85 /\
    str_length (a_repeat 600) - Z.of_nat kept = 500 + 15.
Proof.
  assert (H : str_length (a_repeat 600) > 100) by (vm_compute; reflexivity).
  split; [exact H|].
  destruct (marker_encodes_excess (a_repeat 600) 100 H) as (kept & Hr & Hk & Hx).
  exists kept. split; [exact Hr|]. split; [exact Hk|].
  apply Hx. lia.
Defined.

(* ================================================================== *)
(** * isBase64Binary *)
(* ================================================================== *)

Lemma alphanumeric_not_mark (c : codeunit) :
  is_alphanumeric c = true -> is_base64_mark c = false.
Proof.
  intros H. unfold is_base64_mark, codeunit_eqb.
  destruct (N.eqb_spec c 43) as [->|_]; [vm_compute in H; discriminate|].
  destruct (N.eqb_spec c 47) as [->|_]; [vm_compute in H; discriminate|].
  destruct (N.eqb_spec c 61) as [->|_]; [vm_compute in H; discriminate|].
  reflexivity.
Qed.

Lemma existsb_filter_false (p q : codeunit -> bool) (s : jsstring) :
  existsb p s = false -> existsb p (filter q s) = false.
Proof.
  induction s as [|c s IH]; cbn; [trivial|].
  intros H. apply orb_false_iff in H as [Hc Hs].
  destruct (q c); cbn; rewrite ?Hc; auto.
Qed.

(** A text without any of [+], [/] and [=] is never taken for binary. *)
Lemma isBase64Binary_needs_mark (s : jsstring) :
  existsb is_base64_mark s = false -> isBase64Binary s = false.
Proof.
  intros H. unfold isBase64Binary.
  destruct (str_length s <? 100); [reflexivity|].
  destruct (negb _); [reflexivity|].
  now rewrite (existsb_filter_false _ _ s H).
Qed.

Lemma alphanumeric_no_mark (s : jsstring) :
  forallb is_alphanumeric s = true -> existsb is_base64_mark s = false.
Proof.
  induction s as [|c s IH]; cbn; [trivial|].
  intros H. apply andb_true_iff in H as [Hc Hs].
  now rewrite (alphanumeric_not_mark c Hc), IH.
Qed.

(** C8.  [isBase64Binary] is false on every string shorter than 100 and
    on every string of ASCII letters and digits only, whatever its
    length (a multiple of four included). *)
Theorem isBase64Binary_rejects (s : jsstring) :
  str_length s < 100 \/ forallb is_alphanumeric s = true ->
  isBase64Binary s = false.
Proof.
  intros [Hshort|Halnum].
  - unfold isBase64Binary.
    destruct (Z.ltb_spec (str_length s) 100); [reflexivity|lia].
  - apply isBase64Binary_needs_mark, alphanumeric_no_mark, Halnum.
Qed.

Lemma isBase64Binary_rejects_witness :
  (str_length (lit "short") < 100 /\ isBase64Binary (lit "short") = false) /\
  (forallb is_alphanumeric (a_repeat 100) = true /\
   str_length (a_repeat 100) mod 4 = 0 /\
   isBase64Binary (a_repeat 100) = false).
Proof.
  split.
  - split; [vm_compute; reflexivity|].
    apply (isBase64Binary_rejects (lit "short")). left. vm_compute. reflexivity.
  - split; [vm_compute; reflexivity|]. split; [vm_compute; reflexivity|].
    apply (isBase64Binary_rejects (a_repeat 100)). right. vm_compute. reflexivity.
Defined.

(** The detector accepts the base64 text of its own test. *)
Example isBase64Binary_btoa : isBase64Binary btoa_x100 = true.
Proof. vm_compute. reflexivity. Qed.

(* ================================================================== *)
(** * formatBinarySize *)
(* ================================================================== *)

Lemma Number_toString_digit (d : Z) :
  0 <= d <= 9 -> List.length (Number_toString d) = 1%nat.
Proof.
  intros H.
  assert (E : d = 0 \/ d = 1 \/ d = 2 \/ d = 3 \/ d = 4 \/ d = 5 \/ d = 6
              \/ d = 7 \/ d = 8 \/ d = 9) by lia.
  repeat (destruct E as [->|E]; [reflexivity|]). subst d. reflexivity.
Qed.

(** [toFixed(1)] of a non-negative quotient: a whole part, a point and
    one digit, the nearest tenth with ties rounded up. *)
Lemma toFixed1_nearest_tenth (num den : Z) :
  0 <= num -> 0 < den ->
  exists whole tenth : Z,
    0 <= whole /\ 0 <= tenth <= 9 /\
    toFixed1 num den = Number_toString whole ++ lit "." ++ Number_toString tenth /\
    2 * 10 * num - den < 2 * den * (10 * whole + tenth) <= 2 * 10 * num + den.
Proof.
  intros Hnum Hden. unfold toFixed1.
  destruct (Z.ltb_spec num 0) as [|_]; [lia|]. rewrite Z.abs_eq by lia.
  set (n := (2 * 10 * num + den) / (2 * den)).
  assert (Hn : 0 <= n) by (apply Z.div_pos; lia).
  exists (n / 10), (n mod 10).
  pose proof (Z.mod_pos_bound n 10 ltac:(lia)) as Hm.
  pose proof (Z.div_mod n 10 ltac:(lia)) as Hdm.
  assert (Hw : 0 <= n / 10) by (apply Z.div_pos; lia).
  pose proof (Z.mul_div_le (2 * 10 * num + den) (2 * den) ltac:(lia)) as Hlo.
  pose proof (Z.mul_succ_div_gt (2 * 10 * num + den) (2 * den) ltac:(lia)) as Hhi.
  fold n in Hlo, Hhi.
  repeat split; lia.
Qed.

(** C9.  Below 1024 the byte count is printed as it is; from 1024 up to
    1024 * 1024 it is printed in KB and from there on in MB, to the
    nearest tenth with exactly one decimal digit; and the three sizes of
    the tests print as the specification says. *)
Theorem formatBinarySize_thresholds (bytes : Z) :
  (bytes < 1024 ->
   formatBinarySize bytes = lit "[Binary data: " ++ Number_toString bytes ++ lit " B]") /\
  (1024 <= bytes < 1024 * 1024 ->
   exists whole tenth : Z,
     0 <= whole /\ 0 <= tenth <= 9 /\
     List.length (Number_toString tenth) = 1%nat /\
     formatBinarySize bytes
     = lit "[Binary data: " ++ (Number_toString whole ++ lit "." ++ Number_toString tenth)
         ++ lit " KB]" /\
     10 * bytes - 512 < 1024 * (10 * whole + tenth) <= 10 * bytes + 512) /\
  (1024 * 1024 <= bytes ->
   exists whole tenth : Z,
     0 <= whole /\ 0 <= tenth <= 9 /\
     List.length (Number_toString tenth) = 1%nat /\
     formatBinarySize bytes
     = lit "[Binary data: " ++ (Number_toString whole ++ lit "." ++ Number_toString tenth)
         ++ lit " MB]" /\
     10 * bytes - 524288 < 1048576 * (10 * whole + tenth) <= 10 * bytes + 524288) /\
  formatBinarySize 500 = lit "[Binary data: 500 B]" /\
  formatBinarySize 5000 = lit "[Binary data: 4.9 KB]" /\
  formatBinarySize 5000000 = lit "[Binary data: 4.8 MB]".
Proof.
  split; [|split; [|split; [|repeat split; vm_compute; reflexivity]]].
  - intros H. unfold formatBinarySize.
    destruct (Z.ltb_spec bytes 1024); [reflexivity|lia].
  - intros H. unfold formatBinarySize.
    destruct (Z.ltb_spec bytes 1024); [lia|].
    destruct (Z.ltb_spec bytes (1024 * 1024)); [|lia].
    destruct (toFixed1_nearest_tenth bytes 1024) as (w & t & Hw & Ht & E & B); try lia.
    exists w, t. rewrite E.
    repeat split; try lia. apply Number_toString_digit, Ht.
  - intros H. unfold formatBinarySize.
    destruct (Z.ltb_spec bytes 1024); [lia|].
    destruct (Z.ltb_spec bytes (1024 * 1024)); [lia|].
    destruct (toFixed1_nearest_tenth bytes (1024 * 1024))
      as (w & t & Hw & Ht & E & B); try lia.
    exists w, t. rewrite E.
    repeat split; try lia. apply Number_toString_digit, Ht.
Qed.

Lemma formatBinarySize_thresholds_witness :
  (1023 < 1024 /\ formatBinarySize 1023 = lit "[Binary data: 1023 B]") /\
  (1024 <= 1024 < 1024 * 1024 /\
   exists whole tenth : Z, formatBinarySize 1024
     = lit "[Binary data: " ++ (Number_toString whole ++ lit "." ++ Number_toString tenth)
         ++ lit " KB]") /\
  (1024 * 1024 <= 1048576 /\
   exists whole tenth : Z, formatBinarySize 1048576
     = lit "[Binary data: " ++ (Number_toString whole ++ lit "." ++ Number_toString tenth)
         ++ lit " MB]").
Proof.
  split; [|split].
  - split; [lia|].
    destruct (formatBinarySize_thresholds 1023) as (H & _).
    rewrite H by lia. vm_compute. reflexivity.
  - split; [lia|].
    destruct (formatBinarySize_thresholds 1024) as (_ & H & _).
    destruct (H ltac:(lia)) as (w & t & _ & _ & _ & E & _).
    exists w, t. exact E.
  - split; [lia|].
    destruct (formatBinarySize_thresholds 1048576) as (_ & _ & H & _).
    destruct (H ltac:(lia)) as (w & t & _ & _ & _ & E & _).
    exists w, t. exact E.
Defined.

(* ================================================================== *)
(** * Writing the properties of an object in enumeration order *)
(* ================================================================== *)

Section PropsFacts.
Context {V : Type}.

Lemma has_key_In (k : jsstring) (o : props V) :
  has_key k o = true <-> In k (keys o).
Proof.
  unfold has_key, keys. rewrite existsb_exists, in_map_iff. split.
  - intros (kv & Hin & E). apply jsstring_eqb_eq in E. now exists kv.
  - intros (kv & E & Hin). exists kv. split; [exact Hin|].
    now apply jsstring_eqb_eq.
Qed.

Lemma obj_insert_index_last (i : N) (k : jsstring) (v : V) (o : props V) :
  Forall (fun k' => exists j, array_index k' = Some j /\ (j < i)%N) (keys o) ->
  obj_insert_index i k v o = o ++ [(k, v)].
Proof.
  induction o as [|kv o IH]; cbn; intros H; [reflexivity|].
  inversion H as [|? ? (j & Hj & Hlt) Hrest]; subst.
  rewrite Hj. destruct (N.ltb_spec j i); [|lia].
  now rewrite IH.
Qed.

(** A new key that sorts after every key already present is appended. *)
Lemma obj_set_last (o : props V) (k : jsstring) (v : V) :
  ~ In k (keys o) ->
  k <> proto_key ->
  (forall i, array_index k = Some i ->
     Forall (fun k' => exists j, array_index k' = Some j /\ (j < i)%N) (keys o)) ->
  obj_set o k v = o ++ [(k, v)].
Proof.
  intros Hnew Hproto Hidx. unfold obj_set.
  destruct (has_key k o) eqn:Hk; [apply has_key_In in Hk; contradiction|].
  apply jsstring_eqb_neq in Hproto. rewrite Hproto.
  destruct (array_index k) as [i|] eqn:Hi; [|reflexivity].
  apply obj_insert_index_last, Hidx. reflexivity.
Qed.
End PropsFacts.

Lemma not_existsb_eqb (k : jsstring) (ks : list jsstring) :
  existsb (jsstring_eqb k) ks = false <-> ~ In k ks.
Proof.
  split.
  - intros H Hin. assert (E : existsb (jsstring_eqb k) ks = true).
    { apply existsb_exists. exists k. split; [exact Hin|apply jsstring_eqb_refl]. }
    congruence.
  - intros H. destruct (existsb (jsstring_eqb k) ks) eqn:E; [|reflexivity].
    apply existsb_exists in E as (k' & Hin & E).
    apply jsstring_eqb_eq in E. subst k'. contradiction.
Qed.

Lemma index_keys_below_weaken (n i : N) (ks : list jsstring) :
  (n <= i)%N ->
  index_keys_below (Some n) ks ->
  Forall (fun k' => exists j, array_index k' = Some j /\ (j < i)%N) ks.
Proof.
  intros Hle H. cbn in H. eapply Forall_impl; [|exact H].
  intros k' (j & Hj & Hlt). exists j. split; [exact Hj|lia].
Qed.

(** Copying the properties of a well-formed object without a key
    ["__proto__"] into an object under construction, each value through
    [f], appends them in their order. *)
Lemma fold_obj_set_append {A V : Type} (f : A -> V) (o : props A) :
  forall (acc : props V) (lo : option N),
    keys_distinct (keys o) = true ->
    no_proto_key (keys o) = true ->
    keys_in_order lo (keys o) = true ->
    (forall k, In k (keys acc) -> ~ In k (keys o)) ->
    index_keys_below lo (keys acc) ->
    fold_left (fun result kv => obj_set result (fst kv) (f (snd kv))) o acc
    = acc ++ List.map (fun kv => (fst kv, f (snd kv))) o.
Proof.
  induction o as [|[k a] o IH]; intros acc lo Hd Hp Ho Hfresh Hbelow.
  - cbn. now rewrite app_nil_r.
  - cbn [keys List.map fst snd fold_left] in *.
    cbn [keys_distinct no_proto_key forallb keys_in_order] in Hd, Hp, Ho.
    apply andb_true_iff in Hd as [Hk Hd]. apply negb_true_iff in Hk.
    apply not_existsb_eqb in Hk.
    apply andb_true_iff in Hp as [Hkp Hp]. apply negb_true_iff in Hkp.
    apply jsstring_eqb_neq in Hkp.
    assert (Hnew : ~ In k (keys acc)).
    { intros Hin. apply (Hfresh k Hin). now left. }
    assert (Hfresh' : forall k', In k' (keys (acc ++ [(k, f a)])) -> ~ In k' (keys o)).
    { intros k' Hin. unfold keys in Hin. rewrite map_app, in_app_iff in Hin.
      destruct Hin as [Hin|[<-|[]]]; [|exact Hk].
      intros Ho'. apply (Hfresh k' Hin). now right. }
    destruct (array_index k) as [i|] eqn:Hi.
    + destruct lo as [n|]; [|discriminate].
      apply andb_true_iff in Ho as [Hle Ho]. apply N.leb_le in Hle.
      rewrite obj_set_last; trivial.
      * rewrite (IH _ (Some (i + 1)%N)); trivial.
        -- now rewrite <- app_assoc.
        -- cbn. unfold keys. rewrite map_app. apply Forall_app. split.
           ++ apply (index_keys_below_weaken n); [lia|exact Hbelow].
           ++ constructor; [|constructor]. exists i. split; [exact Hi|lia].
      * intros i' Hi'. rewrite Hi in Hi'. injection Hi' as <-.
        now apply (index_keys_below_weaken n).
    + rewrite obj_set_last; trivial.
      * rewrite (IH _ None); trivial.
        -- now rewrite <- app_assoc.
        -- exact I.
      * intros i' Hi'. congruence.
Qed.

Lemma fold_obj_set_map {A V : Type} (f : A -> V) (o : props A) :
  plain_keys (keys o) = true ->
  fold_left (fun result kv => obj_set result (fst kv) (f (snd kv))) o []
  = List.map (fun kv => (fst kv, f (snd kv))) o.
Proof.
  unfold plain_keys, own_keys_wf. intros H.
  apply andb_true_iff in H as [H Hp]. apply andb_true_iff in H as [Hd Ho].
  apply (fold_obj_set_append f o [] (Some 0%N)); trivial.
  - intros k [].
  - constructor.
Qed.

(* ================================================================== *)
(** * truncateJsonValues *)
(* ================================================================== *)

Section JsonFacts.
Context {number : Type}.

(** Induction on JSON values, with the hypothesis available for every
    element of a sequence and every value of a mapping. *)
Lemma JValue_induction (P : JValue number -> Prop) :
  P JUndefined -> P JNull ->
  (forall b, P (JBool b)) ->
  (forall n, P (JNumber n)) ->
  (forall s, P (JString s)) ->
  (forall l, Forall P l -> P (JArray l)) ->
  (forall o, Forall (fun kv => P (snd kv)) o -> P (JObject o)) ->
  forall v, P v.
Proof.
  intros Hu Hn Hb Hnum Hs Ha Ho. fix IH 1. intros [ | |b|n|s|l|o].
  - exact Hu.
  - exact Hn.
  - apply Hb.
  - apply Hnum.
  - apply Hs.
  - apply Ha. induction l as [|x l IHl]; constructor; [apply IH|exact IHl].
  - apply Ho. induction o as [|kv o IHo]; constructor; [apply IH|exact IHo].
Qed.

Lemma truncateJsonValues_object (o : props (JValue number))
  (options : option TruncateOptions) :
  plain_keys (keys o) = true ->
  truncateJsonValues (JObject o) options
  = JObject (List.map (fun kv => (fst kv, truncateJsonValues (snd kv) options)) o).
Proof.
  intros H. cbn [truncateJsonValues]. f_equal.
  exact (fold_obj_set_map (fun v => truncateJsonValues v options) o H).
Qed.

(** On values whose mappings have no key ["__proto__"] the walk keeps
    the shape and truncates each string leaf where it stands. *)
Lemma truncateJsonValues_truncation_of (v : JValue number)
  (options : option TruncateOptions) :
  all_objects plain_keys v = true ->
  truncation_of (resolve_maxStringLength options) v (truncateJsonValues v options).
Proof.
  induction v as [ | |b|n|s|l IH|o IH] using JValue_induction; intros Hall.
  - constructor.
  - constructor.
  - constructor.
  - constructor.
  - cbn [truncateJsonValues]. constructor.
  - cbn [truncateJsonValues]. constructor. cbn [all_objects] in Hall.
    induction l as [|x l IHl]; cbn in *; constructor.
    + apply andb_true_iff in Hall as [Hx _]. inversion IH; subst. auto.
    + apply andb_true_iff in Hall as [_ Hl]. inversion IH; subst. auto.
  - cbn [all_objects] in Hall. apply andb_true_iff in Hall as [Hk Hall].
    rewrite (truncateJsonValues_object o options Hk). constructor.
    clear Hk. induction o as [|kv o IHo]; cbn in *; constructor.
    + apply andb_true_iff in Hall as [Hx _]. inversion IH; subst. auto.
    + apply andb_true_iff in Hall as [_ Hl]. inversion IH; subst. auto.
Qed.

(** If moreover no string leaf exceeds the budget, nothing changes. *)
Lemma truncateJsonValues_unchanged (v : JValue number)
  (options : option TruncateOptions) :
  all_objects plain_keys v = true ->
  all_strings (within_budget (resolve_maxStringLength options)) v = true ->
  truncateJsonValues v options = v.
Proof.
  induction v as [ | |b|n|s|l IH|o IH] using JValue_induction;
    intros Hall Hstr; try reflexivity.
  - cbn [truncateJsonValues]. cbn in Hstr. unfold within_budget in Hstr.
    apply Z.leb_le in Hstr. now rewrite truncateString_then.
  - cbn [truncateJsonValues]. f_equal. cbn [all_objects all_strings] in *.
    induction l as [|x l IHl]; cbn in *; [reflexivity|].
    apply andb_true_iff in Hall as [Hx Hl].
    apply andb_true_iff in Hstr as [Sx Sl].
    inversion IH; subst. f_equal; auto.
  - cbn [all_objects all_strings] in *. apply andb_true_iff in Hall as [Hk Hall].
    rewrite (truncateJsonValues_object o options Hk). f_equal.
    clear Hk. induction o as [|[k x] o IHo]; cbn in *; [reflexivity|].
    apply andb_true_iff in Hall as [Hx Hl].
    apply andb_true_iff in Hstr as [Sx Sl].
    inversion IH; subst. cbn in *. f_equal; auto. f_equal; auto.
Qed.
End JsonFacts.

(** C3 fails on the code: written through [result[key] = ...], the key
    ["__proto__"] of a parsed mapping reaches the prototype setter and is
    missing from the result, so the key set is not preserved. *)
Theorem truncateJsonValues_loses_proto_key :
  all_objects own_keys_wf proto_object = true /\
  truncateJsonValues proto_object None = JObject [(lit "a", JString (lit "x"))] /\
  ~ truncation_of (resolve_maxStringLength None) proto_object
      (truncateJsonValues proto_object None).
Proof.
  split; [vm_compute; reflexivity|].
  assert (E : truncateJsonValues proto_object None
              = JObject [(lit "a", JString (lit "x"))])
    by (vm_compute; reflexivity).
  split; [exact E|]. rewrite E. unfold proto_object. intros H.
  inversion H as [ | | | | | |o o' HF]; subst.
  inversion HF as [|? ? ? ? _ HF']; subst.
  inversion HF'.
Qed.

(* ================================================================== *)
(** * truncateNetworkEntry and truncateHeaders *)
(* ================================================================== *)

(** The entry keeps every field but [url], [statusText] and [error],
    which go through [truncateString] (a missing or empty text stays as
    it is). *)
Lemma truncateNetworkEntry_frame {number : Type}
  (entry : NetworkEntryForTruncation number) (options : option TruncateOptions) :
  let m := resolve_maxStringLength options in
  let out := truncateNetworkEntry entry options in
  requestId out = requestId entry /\
  method out = method entry /\
  status out = status entry /\
  mimeType out = mimeType entry /\
  resourceType out = resourceType entry /\
  timestamp out = timestamp entry /\
  completed out = completed entry /\
  url out = TruncateResult.value (truncateString (url entry) m) /\
  statusText out = truncate_if_truthy (statusText entry) m /\
  error out = truncate_if_truthy (error entry) m.
Proof. cbn. repeat split. Qed.

Lemma truncate_if_truthy_nonneg (field : option jsstring) (m : Z) :
  0 <= m ->
  truncate_if_truthy field m
  = option_map (fun s => TruncateResult.value (truncateString s m)) field.
Proof.
  intros Hm. destruct field as [[|c s]|]; cbn [truncate_if_truthy option_map];
    try reflexivity.
  rewrite truncateString_then; [reflexivity|]. cbn. exact Hm.
Qed.

Example truncateNetworkEntry_ok_entry :
  truncateNetworkEntry ok_entry (Some (mkOptions (Some 500))) = ok_entry.
Proof. vm_compute. reflexivity. Qed.

(** A header map without a header named [__proto__] keeps its names,
    in their order, and has each value truncated on its own. *)
Lemma truncateHeaders_plain (headers : props jsstring)
  (options : option TruncateOptions) :
  plain_keys (keys headers) = true ->
  headers_truncation_of (resolve_maxStringLength options) headers
    (truncateHeaders headers options) /\
  keys (truncateHeaders headers options) = keys headers.
Proof.
  intros H. unfold truncateHeaders, headers_truncation_of.
  rewrite (fold_obj_set_map
             (fun v => TruncateResult.value
                         (truncateString v (resolve_maxStringLength options)))
             headers H).
  clear H. split.
  - induction headers as [|kv h IH]; cbn; constructor; auto.
  - unfold keys. rewrite map_map. reflexivity.
Qed.

(** C7 fails on the code: [truncateHeaders] writes each header through
    [result[key] = ...], so a header named [__proto__] is missing from
    the result and the key set is not preserved. *)
Theorem truncateHeaders_loses_proto_key :
  own_keys_wf (keys proto_headers) = true /\
  truncateHeaders proto_headers None = [(lit "accept", lit "*/*")] /\
  keys (truncateHeaders proto_headers None) <> keys proto_headers.
Proof.
  split; [vm_compute; reflexivity|].
  split; [vm_compute; reflexivity|].
  vm_compute. discriminate.
Qed.

(* ================================================================== *)
(** * truncateResponseBody *)
(* ================================================================== *)

(** C6.  With [base64Encoded] set the result is binary and truncated
    whatever the body, the budget and the detector say; its text is
    [formatBinarySize] of [floor(length(body) * 3 / 4)]. *)
Theorem truncateResponseBody_base64Encoded {number : Type}
  (JSON_parse : jsstring -> option (JValue number))
  (JSON_stringify : JValue number -> option jsstring)
  (stack_suffices : JValue number -> bool)
  (body : jsstring) (options : option TruncateOptions) :
  exists estimatedBytes : Z,
    4 * estimatedBytes <= str_length body * 3 < 4 * estimatedBytes + 4 /\
    truncateResponseBody JSON_parse JSON_stringify stack_suffices body true options
    = ResponseBody.mk (formatBinarySize estimatedBytes) true (str_length body) Binary.
Proof.
  exists (str_length body * 3 / 4). split; [|reflexivity].
  pose proof (Z.mul_div_le (str_length body * 3) 4 ltac:(lia)).
  pose proof (Z.mul_succ_div_gt (str_length body * 3) 4 ltac:(lia)).
  lia.
Qed.

(** C10.  Whatever the branch, [originalLength] is the length of the
    raw body. *)
Theorem truncateResponseBody_originalLength {number : Type}
  (JSON_parse : jsstring -> option (JValue number))
  (JSON_stringify : JValue number -> option jsstring)
  (stack_suffices : JValue number -> bool)
  (body : jsstring) (base64Encoded : bool) (options : option TruncateOptions) :
  ResponseBody.originalLength
    (truncateResponseBody JSON_parse JSON_stringify stack_suffices body base64Encoded options)
  = str_length body.
Proof.
  unfold truncateResponseBody.
  destruct (base64Encoded || isBase64Binary body); [reflexivity|].
  assert (Hcatch : TruncateResult.originalLength
                     (truncateString body (resolve_maxStringLength options))
                   = str_length body).
  { unfold truncateString.
    destruct (str_length body <=? resolve_maxStringLength options); reflexivity. }
  unfold and_then.
  destruct (JSON_parse body) as [parsed|]; [|exact Hcatch].
  destruct (stack_suffices parsed); [|exact Hcatch].
  destruct (JSON_stringify _) as [truncatedBody|]; [|exact Hcatch].
  destruct (JSON_stringify parsed) as [originalFormatted|]; [reflexivity|exact Hcatch].
Qed.

(** The kind reported: binary before anything else, JSON when the
    [try] block runs to its end, text when something in it throws. *)
Lemma truncateResponseBody_kind {number : Type}
  (JSON_parse : jsstring -> option (JValue number))
  (JSON_stringify : JValue number -> option jsstring)
  (stack_suffices : JValue number -> bool)
  (body : jsstring) (base64Encoded : bool) (options : option TruncateOptions) :
  ResponseBody.type
    (truncateResponseBody JSON_parse JSON_stringify stack_suffices body base64Encoded options)
  = if base64Encoded || isBase64Binary body then Binary
    else match JSON_parse body with
         | Some parsed =>
             if stack_suffices parsed then
               match JSON_stringify
                       (truncateJsonValues parsed
                          (Some (mkOptions (Some (resolve_maxStringLength options))))),
                     JSON_stringify parsed with
               | Some _, Some _ => Json
               | _, _ => Text
               end
             else Text
         | None => Text
         end.
Proof.
  unfold truncateResponseBody, and_then.
  destruct (base64Encoded || isBase64Binary body); [reflexivity|].
  destruct (JSON_parse body) as [parsed|]; [|reflexivity].
  destruct (stack_suffices parsed); [|reflexivity].
  destruct (JSON_stringify _); [|reflexivity].
  destruct (JSON_stringify parsed); reflexivity.
Qed.

(** C4 as worded fails: the binary test comes before the JSON parse.
    The body [1e+1] padded with spaces to 100 units parses as JSON, yet
    the detector takes it for base64 and the result is binary; and any
    JSON body is binary once [base64Encoded] is set. *)
Lemma json_body_reported_binary :
  parse_at exponent_body (JNumber 10) exponent_body = Some (JNumber 10) /\
  ResponseBody.type
    (truncateResponseBody (parse_at exponent_body (JNumber 10))
       stringify_integers stack_of_1000 exponent_body false None) <> Json /\
  parse_at short_value_body short_value short_value_body = Some short_value /\
  ResponseBody.type
    (truncateResponseBody (parse_at short_value_body short_value)
       stringify_integers stack_of_1000 short_value_body true None) <> Json.
Proof.
  repeat split; try (vm_compute; reflexivity); vm_compute; discriminate.
Qed.

(** C4, amended.  When [base64Encoded] is not set and the detector does
    not take the body for base64, a body that parses as JSON is reported
    as JSON, provided nothing else in the [try] block throws: the walk
    and the two serialisations run to their end.  Its flag is then the
    comparison of the two serialised lengths, and the flag is false when
    no string leaf of the parsed value exceeds the budget, for values
    whose mappings have no key ["__proto__"]. *)
Theorem truncateResponseBody_json {number : Type}
  (JSON_parse : jsstring -> option (JValue number))
  (JSON_stringify : JValue number -> option jsstring)
  (stack_suffices : JValue number -> bool)
  (body : jsstring) (options : option TruncateOptions) (parsed : JValue number)
  (truncatedBody originalFormatted : jsstring) :
  isBase64Binary body = false ->
  JSON_parse body = Some parsed ->
  stack_suffices parsed = true ->
  let m := resolve_maxStringLength options in
  let walked := truncateJsonValues parsed (Some (mkOptions (Some m))) in
  JSON_stringify walked = Some truncatedBody ->
  JSON_stringify parsed = Some originalFormatted ->
  let r := truncateResponseBody JSON_parse JSON_stringify stack_suffices
             body false options in
  ResponseBody.type r = Json /\
  ResponseBody.body r = truncatedBody /\
  ResponseBody.truncated r
  = (str_length truncatedBody <? str_length originalFormatted) /\
  (all_objects plain_keys parsed = true ->
   all_strings (within_budget m) parsed = true ->
   ResponseBody.truncated r = false).
Proof.
  intros Hbin Hparse Hstack m walked Hwalked Horiginal r. subst r.
  unfold truncateResponseBody, and_then.
  rewrite Hbin, Hparse, Hstack. fold m. fold walked.
  rewrite Hwalked, Horiginal.
  cbn [orb ResponseBody.type ResponseBody.body ResponseBody.truncated].
  repeat split.
  intros Hkeys Hstr. subst walked.
  rewrite (truncateJsonValues_unchanged parsed (Some (mkOptions (Some m))) Hkeys Hstr)
    in Hwalked.
  assert (E : truncatedBody = originalFormatted) by congruence.
  rewrite E. apply Z.ltb_irrefl.
Qed.

Lemma truncateResponseBody_json_witness :
  isBase64Binary short_value_body = false /\
  parse_at short_value_body short_value short_value_body = Some short_value /\
  stack_of_1000 short_value = true /\
  stringify_integers short_value = Some short_value_text /\
  all_objects plain_keys short_value = true /\
  all_strings (within_budget 500) short_value = true /\
  let r := truncateResponseBody (parse_at short_value_body short_value)
             stringify_integers stack_of_1000 short_value_body false
             (Some (mkOptions (Some 500))) in
  ResponseBody.type r = Json /\ ResponseBody.truncated r = false.
Proof.
  assert (Hbin : isBase64Binary short_value_body = false) by (vm_compute; reflexivity).
  assert (Hparse : parse_at short_value_body short_value short_value_body
                   = Some short_value) by (vm_compute; reflexivity).
  assert (Hstack : stack_of_1000 short_value = true) by (vm_compute; reflexivity).
  assert (Hwalked : stringify_integers
                      (truncateJsonValues short_value
                         (Some (mkOptions
                                  (Some (resolve_maxStringLength
                                           (Some (mkOptions (Some 500))))))))
                    = Some short_value_text) by (vm_compute; reflexivity).
  assert (Horiginal : stringify_integers short_value = Some short_value_text)
    by (vm_compute; reflexivity).
  assert (Hkeys : all_objects plain_keys short_value = true) by (vm_compute; reflexivity).
  assert (Hstr : all_strings (within_budget 500) short_value = true)
    by (vm_compute; reflexivity).
  destruct (truncateResponseBody_json (parse_at short_value_body short_value)
              stringify_integers stack_of_1000 short_value_body
              (Some (mkOptions (Some 500))) short_value
              short_value_text short_value_text
              Hbin Hparse Hstack Hwalked Horiginal)
    as (Ht & _ & _ & Hf).
  split; [exact Hbin|]. split; [exact Hparse|]. split; [exact Hstack|].
  split; [exact Horiginal|]. split; [exact Hkeys|].
  split; [exact Hstr|]. split; [exact Ht|exact (Hf Hkeys Hstr)].
Defined.

(** The same slip shows in the flag: no string leaf of
    [{"a":"x","__proto__":"y"}] exceeds the budget, yet the copy lacks
    one key, serialises shorter and the body is reported truncated. *)
Example truncateResponseBody_proto_body :
  all_strings (within_budget 500) proto_object = true /\
  ResponseBody.truncated
    (truncateResponseBody (parse_at proto_body proto_object)
       stringify_integers stack_of_1000 proto_body false None) = true.
Proof. split; vm_compute; reflexivity. Qed.

(** The end-to-end property of the specification: with a budget of 500
    both long leaves end in markers for 500 and for 200 units, and the
    keys and the nesting are as they were. *)
Example truncateJsonValues_nested_value :
  truncateJsonValues nested_value (Some (mkOptions (Some 500)))
  = JObject [(lit "data", JString (a_repeat 485 ++ lit "...[+500 chars]"));
             (lit "nested",
              JObject [(lit "field",
                        JString (repeat 98%N 485 ++ lit "...[+200 chars]"))])].
Proof. vm_compute. reflexivity. Qed.

(* ================================================================== *)
(** * How many digits a number prints *)
(* ================================================================== *)

Lemma uint_units_length (d : uint) : List.length (uint_units d) = nb_digits d.
Proof. induction d; cbn; auto. Qed.

Lemma to_uint_rev_to_lu (n : N) :
  N.to_uint n = Decimal.rev (DecimalPos.Unsigned.to_lu n).
Proof. destruct n; reflexivity. Qed.

(** Appending a digit to a positive number adds one digit to its
    spelling. *)
Lemma to_lu_append_digit (q : positive) (r : N) :
  (r < 10)%N ->
  nb_digits (DecimalPos.Unsigned.to_lu (10 * Npos q + r))
  = S (nb_digits (DecimalPos.Unsigned.to_lu (Npos q))).
Proof.
  intros Hr.
  assert (E : exists i : nat, (i < 10)%nat /\ r = N.of_nat i).
  { exists (N.to_nat r). split; [lia|now rewrite N2Nat.id]. }
  destruct E as (i & Hi & ->).
  assert (S10 : forall j : nat,
             (10 * Npos q + N.of_nat j)%N
             = Nat.iter j N.succ (10 * Npos q)%N).
  { induction j as [|j IHj]; [cbn; lia|].
    rewrite Nat2N.inj_succ, N.add_succ_r, IHj. reflexivity. }
  rewrite S10.
  do 10 (destruct i as [|i];
         [cbv [Nat.iter nat_rect];
          rewrite ?DecimalPos.Unsigned.to_lu_succ,
                  DecimalPos.Unsigned.to_ldec_tenfold;
          reflexivity|]).
  lia.
Qed.

Lemma nb_digits_to_lu_bound (k : nat) :
  forall n : N, (n < 10 ^ N.of_nat (S k))%N ->
                (nb_digits (DecimalPos.Unsigned.to_lu n) <= S k)%nat.
Proof.
  induction k as [|k IH]; intros n Hn.
  - change (10 ^ N.of_nat 1)%N with 10%N in Hn.
    assert (E : exists i : nat, (i < 10)%nat /\ n = N.of_nat i).
    { exists (N.to_nat n). split; [lia|now rewrite N2Nat.id]. }
    destruct E as (i & Hi & ->).
    do 10 (destruct i as [|i]; [cbn; lia|]). lia.
  - destruct (N.ltb_spec n 10) as [Hsmall|Hbig].
    + assert (E : exists i : nat, (i < 10)%nat /\ n = N.of_nat i).
      { exists (N.to_nat n). split; [lia|now rewrite N2Nat.id]. }
      destruct E as (i & Hi & ->).
      do 10 (destruct i as [|i]; [cbn; lia|]). lia.
    + pose proof (N.div_mod n 10 ltac:(lia)) as Hdm.
      pose proof (N.mod_lt n 10 ltac:(lia)) as Hr.
      assert (Hq : (0 < n / 10)%N).
      { apply N.div_str_pos. lia. }
      assert (Hqk : (n / 10 < 10 ^ N.of_nat (S k))%N).
      { apply N.Div0.div_lt_upper_bound.
        rewrite <- N.pow_succ_r', <- Nat2N.inj_succ. exact Hn. }
      specialize (IH (n / 10)%N Hqk).
      destruct (n / 10)%N as [|q] eqn:Eq; [lia|].
      rewrite Hdm, to_lu_append_digit by exact Hr. lia.
Qed.

Lemma Number_toString_length_bound (k : nat) (z : Z) :
  0 <= z < 10 ^ Z.of_nat (S k) ->
  (List.length (Number_toString z) <= S k)%nat.
Proof.
  intros [Hz Hlt]. rewrite (Number_toString_nonneg z Hz).
  rewrite uint_units_length, to_uint_rev_to_lu, DecimalFacts.nb_digits_rev.
  apply nb_digits_to_lu_bound.
  apply N2Z.inj_lt. rewrite Z2N.id by lia.
  rewrite N2Z.inj_pow, nat_N_Z. exact Hlt.
Qed.

(** The marker of a string JavaScript can hold has at most 28 units:
    twelve fixed ones and at most sixteen digits. *)
Lemma indicator_length_bound (n : Z) :
  0 <= n < 2 ^ 53 -> str_length (indicator n) <= 28.
Proof.
  intros Hn. unfold indicator. rewrite !str_length_app.
  change (str_length (lit "...[+")) with 5.
  change (str_length (lit " chars]")) with 7.
  pose proof (Number_toString_length_bound 15 n) as H.
  unfold str_length.
  assert (Hp : 2 ^ 53 < 10 ^ Z.of_nat 16) by (vm_compute; reflexivity).
  specialize (H ltac:(lia)). lia.
Qed.

(* ================================================================== *)
(** * truncateString: the size of the result *)
(* ================================================================== *)

Lemma truncateString_else_length (s : jsstring) (b : Z) :
  str_length s > b ->
  str_length (TruncateResult.value (truncateString s b))
  = Z.max b (str_length (indicator (str_length s - b))).
Proof.
  intros H.
  destruct (truncateString_else_parts s b H) as (_ & Hk & _).
  rewrite (truncateString_else s b H). cbn [TruncateResult.value].
  rewrite str_length_app. unfold str_length at 1. rewrite Hk. lia.
Qed.

Lemma truncateString_length_min (s : jsstring) (b : Z) :
  str_length s < 2 ^ 53 -> 28 <= b ->
  str_length (TruncateResult.value (truncateString s b))
  = Z.min (str_length s) b.
Proof.
  intros Hs Hb. destruct (Z.le_gt_cases (str_length s) b) as [Hle|Hgt].
  - rewrite (truncateString_then s b Hle). cbn [TruncateResult.value]. lia.
  - rewrite truncateString_else_length by lia.
    pose proof (str_length_nonneg s).
    pose proof (indicator_length_bound (str_length s - b) ltac:(lia)). lia.
Qed.

(** X1.  A truncated value has [max(b, |marker|)] code units: exactly the
    budget when the marker fits into it, and then it is shorter than the
    input. *)
Theorem truncateString_value_length (s : jsstring) (b : Z) :
  str_length s > b ->
  let marker := indicator (str_length s - b) in
  let value := TruncateResult.value (truncateString s b) in
  str_length value = Z.max b (str_length marker) /\
  (str_length marker <= b ->
   str_length value = b /\ str_length value < str_length s).
Proof.
  intros H marker value. subst marker value.
  rewrite (truncateString_else_length s b H). split; [reflexivity|]. lia.
Qed.

Lemma truncateString_value_length_witness :
  str_length (a_repeat 600) > 100 /\
  str_length (indicator (str_length (a_repeat 600) - 100)) <= 100 /\
  str_length (TruncateResult.value (truncateString (a_repeat 600) 100)) = 100.
Proof.
  assert (H : str_length (a_repeat 600) > 100) by (vm_compute; reflexivity).
  assert (Hm : str_length (indicator (str_length (a_repeat 600) - 100)) <= 100)
    by (vm_compute; discriminate).
  split; [exact H|]. split; [exact Hm|].
  destruct (truncateString_value_length (a_repeat 600) 100 H) as (_ & Hfit).
  exact (proj1 (Hfit Hm)).
Defined.

(** X2.  For every string JavaScript can hold (fewer than 2^53 units)
    and every budget of at least 28, the value [truncateString] returns
    has [min(length(s), b)] units: it never exceeds the budget. *)
Theorem truncateString_never_exceeds_budget (s : jsstring) (b : Z) :
  str_length s < 2 ^ 53 -> 28 <= b ->
  str_length (TruncateResult.value (truncateString s b))
  = Z.min (str_length s) b.
Proof. exact (truncateString_length_min s b). Qed.

Lemma truncateString_never_exceeds_budget_witness :
  str_length (a_repeat 600) < 2 ^ 53 /\ 28 <= 500 /\
  str_length (TruncateResult.value (truncateString (a_repeat 600) 500)) = 500.
Proof.
  assert (H : str_length (a_repeat 600) < 2 ^ 53) by (vm_compute; reflexivity).
  split; [exact H|]. split; [lia|].
  rewrite (truncateString_never_exceeds_budget (a_repeat 600) 500 H ltac:(lia)).
  vm_compute. reflexivity.
Defined.

(** X3.  With a budget below 13 no unit of the input is kept: a
    truncated value is the marker alone, and it is longer than the
    budget. *)
Theorem truncateString_tiny_budget (s : jsstring) (b : Z) :
  str_length s > b -> b < 13 ->
  TruncateResult.value (truncateString s b) = indicator (str_length s - b) /\
  b < str_length (TruncateResult.value (truncateString s b)).
Proof.
  intros H Hb.
  pose proof (indicator_length (str_length s - b)) as Hm.
  rewrite (truncateString_else s b H). cbn [TruncateResult.value].
  rewrite Z.max_l by lia.
  rewrite slice_from_start by lia.
  change (firstn (Z.to_nat 0) s ++ indicator (str_length s - b))
    with (indicator (str_length s - b)).
  split; [reflexivity|lia].
Qed.

Lemma truncateString_tiny_budget_witness :
  str_length (lit "hello") > 0 /\ 0 < 13 /\
  TruncateResult.value (truncateString (lit "hello") 0) = lit "...[+5 chars]".
Proof.
  assert (H : str_length (lit "hello") > 0) by (vm_compute; reflexivity).
  split; [exact H|]. split; [lia|].
  destruct (truncateString_tiny_budget (lit "hello") 0 H ltac:(lia)) as (E & _).
  rewrite E. vm_compute. reflexivity.
Defined.

(** X4.  Truncating twice is truncating once: for a string JavaScript
    can hold and a budget of at least 28, the value of a first pass goes
    through a second pass unchanged and is not reported truncated. *)
Theorem truncateString_idempotent (s : jsstring) (b : Z) :
  str_length s < 2 ^ 53 -> 28 <= b ->
  let once := TruncateResult.value (truncateString s b) in
  truncateString once b = TruncateResult.mk once false (str_length once).
Proof.
  intros Hs Hb once. apply truncateString_then. subst once.
  rewrite truncateString_length_min by assumption. lia.
Qed.

Lemma truncateString_idempotent_witness :
  str_length (a_repeat 600) < 2 ^ 53 /\ 28 <= 100 /\
  TruncateResult.truncated
    (truncateString (TruncateResult.value (truncateString (a_repeat 600) 100)) 100)
  = false.
Proof.
  assert (H : str_length (a_repeat 600) < 2 ^ 53) by (vm_compute; reflexivity).
  split; [exact H|]. split; [lia|].
  rewrite (truncateString_idempotent (a_repeat 600) 100 H ltac:(lia)).
  reflexivity.
Defined.

(** X5.  [truncated = true] does not say that the value differs from the
    input: a text that is itself the marker for [n] comes back as it is,
    reported truncated, when the budget is its length less [n]. *)
Theorem truncateString_marker_fixpoint (n : Z) :
  1 <= n ->
  let s := indicator n in
  truncateString s (str_length s - n)
  = TruncateResult.mk s true (str_length s).
Proof.
  intros Hn s.
  assert (H : str_length s > str_length s - n) by lia.
  rewrite (truncateString_else s _ H).
  replace (str_length s - (str_length s - n)) with n by lia. fold s.
  rewrite Z.max_l by lia.
  rewrite slice_from_start by lia. reflexivity.
Qed.

Lemma truncateString_marker_fixpoint_witness :
  1 <= 5 /\
  truncateString (lit "...[+5 chars]") 8
  = TruncateResult.mk (lit "...[+5 chars]") true 13.
Proof.
  split; [lia|]. exact (truncateString_marker_fixpoint 5 ltac:(lia)).
Defined.

(* ================================================================== *)
(** * Objects built by assignment, whatever the keys *)
(* ================================================================== *)

Section PropsAnyKeys.
Context {V : Type}.

Lemma keys_obj_update (k : jsstring) (v : V) (o : props V) :
  keys (obj_update k v o) = keys o.
Proof.
  unfold keys, obj_update. rewrite map_map. apply map_ext_in.
  intros kv _. destruct (jsstring_eqb (fst kv) k) eqn:E; [|reflexivity].
  apply jsstring_eqb_eq in E. now rewrite E.
Qed.

Lemma In_obj_update (k : jsstring) (v : V) (o : props V) (x : jsstring * V) :
  In x (obj_update k v o) -> In x o \/ x = (k, v).
Proof.
  unfold obj_update. rewrite in_map_iff. intros (kv & E & Hin).
  destruct (jsstring_eqb (fst kv) k); subst x; auto.
Qed.

Lemma In_obj_insert_index (i : N) (k : jsstring) (v : V) (o : props V)
  (x : jsstring * V) :
  In x (obj_insert_index i k v o) <-> In x o \/ x = (k, v).
Proof.
  induction o as [|kv o IH]; cbn.
  - intuition.
  - destruct (array_index (fst kv)) as [j|]; [destruct (j <? i)%N|]; cbn;
      rewrite ?IH; intuition.
Qed.

Lemma In_obj_set (o : props V) (k : jsstring) (v : V) (x : jsstring * V) :
  In x (obj_set o k v) -> In x o \/ x = (k, v).
Proof.
  unfold obj_set. destruct (has_key k o); [apply In_obj_update|].
  destruct (jsstring_eqb k proto_key); [now left|].
  destruct (array_index k).
  - apply In_obj_insert_index.
  - rewrite in_app_iff. cbn. intuition.
Qed.

(** The keys after an assignment: the key written is there unless it is
    ["__proto__"] and was not there before. *)
Lemma keys_obj_set (o : props V) (k : jsstring) (v : V) (k' : jsstring) :
  In k' (keys (obj_set o k v))
  <-> In k' (keys o) \/ (k' = k /\ k <> proto_key).
Proof.
  unfold obj_set. destruct (has_key k o) eqn:Hk.
  - rewrite keys_obj_update. apply has_key_In in Hk.
    split; [now left|]. intros [H|[-> _]]; assumption.
  - destruct (jsstring_eqb k proto_key) eqn:Hp.
    + apply jsstring_eqb_eq in Hp. split; [now left|].
      intros [H|[_ H]]; [assumption|contradiction].
    + apply jsstring_eqb_neq in Hp.
      assert (E : forall o' : props V,
                 (forall x, In x o' <-> In x o \/ x = (k, v)) ->
                 (In k' (keys o') <-> In k' (keys o) \/ k' = k /\ k <> proto_key)).
      { intros o' Ho'. unfold keys. rewrite !in_map_iff. split.
        - intros (x & <- & Hx). apply Ho' in Hx as [Hx| ->].
          + left. now exists x.
          + right. now split.
        - intros [(x & <- & Hx)|[-> _]].
          + exists x. split; [reflexivity|]. apply Ho'. now left.
          + exists (k, v). split; [reflexivity|]. apply Ho'. now right. }
      destruct (array_index k).
      * apply E. intros x. apply In_obj_insert_index.
      * apply E. intros x. rewrite in_app_iff. cbn. intuition.
Qed.
End PropsAnyKeys.

(** The keys and the entries of an object filled by assignments from the
    properties of another one. *)
Lemma fold_obj_set_keys {A V : Type} (f : A -> V) (o : props A) :
  forall (acc : props V) (k : jsstring),
    In k (keys (fold_left (fun result kv => obj_set result (fst kv) (f (snd kv)))
                  o acc))
    <-> In k (keys acc) \/ (In k (keys o) /\ k <> proto_key).
Proof.
  induction o as [|[k0 a] o IH]; intros acc k; cbn [fold_left fst snd].
  - cbn. intuition.
  - change (keys ((k0, a) :: o)) with (k0 :: keys o).
    rewrite IH, keys_obj_set. cbn [In]. split.
    + intros [[H|[-> H]]|[H Hp]]; auto.
    + intros [H|[[<-|H] Hp]]; auto.
Qed.

Lemma fold_obj_set_entries {A V : Type} (f : A -> V) (o : props A) :
  forall (acc : props V) (x : jsstring * V),
    In x (fold_left (fun result kv => obj_set result (fst kv) (f (snd kv))) o acc) ->
    In x acc \/ exists a, In (fst x, a) o /\ snd x = f a.
Proof.
  induction o as [|[k0 a] o IH]; intros acc x; cbn [fold_left fst snd].
  - now left.
  - intros H. apply IH in H as [H|(a' & Ha & E)].
    + apply In_obj_set in H as [H| ->]; [now left|].
      right. exists a. split; [now left|reflexivity].
    + right. exists a'. split; [now right|exact E].
Qed.

(* ================================================================== *)
(** * truncateJsonValues: more of what it does *)
(* ================================================================== *)

Lemma fold_left_ext_Forall {A B : Type} (f g : A -> B -> A) (l : list B) :
  Forall (fun x => forall a, f a x = g a x) l ->
  forall a, fold_left f l a = fold_left g l a.
Proof.
  induction 1 as [|x l Hx _ IH]; intros a; cbn; [reflexivity|].
  now rewrite Hx, IH.
Qed.

(** X6.  The options reach the walk only through the budget they resolve
    to: absent options, an absent [maxStringLength] and an explicit 500
    give the same result, and so does the record [{maxStringLength}]
    that [truncateResponseBody] builds in place of its own options. *)
Theorem truncateJsonValues_options {number : Type} (v : JValue number)
  (options options' : option TruncateOptions) :
  resolve_maxStringLength options = resolve_maxStringLength options' ->
  truncateJsonValues v options = truncateJsonValues v options'.
Proof.
  intros E.
  induction v as [ | |b|n|s|l IH|o IH] using JValue_induction;
    cbn [truncateJsonValues]; try reflexivity.
  - now rewrite E.
  - f_equal. apply map_ext_in. intros x Hx.
    rewrite Forall_forall in IH. now apply IH.
  - f_equal. apply fold_left_ext_Forall.
    eapply Forall_impl; [|exact IH]. cbn. intros kv Hkv a. now rewrite Hkv.
Qed.

Lemma truncateJsonValues_options_witness :
  resolve_maxStringLength None
  = resolve_maxStringLength (Some (mkOptions (Some 500))) /\
  truncateJsonValues nested_value None
  = truncateJsonValues nested_value (Some (mkOptions (Some 500))).
Proof.
  split; [reflexivity|].
  apply (truncateJsonValues_options nested_value None (Some (mkOptions (Some 500)))).
  reflexivity.
Defined.

(** X7.  Whatever the keys of a mapping are, its copy has exactly the
    keys of the original other than ["__proto__"], and each entry of the
    copy is the walk of an entry of the original under the same key: no
    key and no value is made up, and no own property ["__proto__"] is
    ever created. *)
Theorem truncateJsonValues_object_keys {number : Type}
  (o : props (JValue number)) (options : option TruncateOptions) :
  exists o' : props (JValue number),
    truncateJsonValues (JObject o) options = JObject o' /\
    (forall k, In k (keys o') <-> In k (keys o) /\ k <> proto_key) /\
    (forall k w, In (k, w) o' ->
       exists v, In (k, v) o /\ w = truncateJsonValues v options).
Proof.
  eexists. split; [reflexivity|]. split.
  - intros k.
    rewrite (fold_obj_set_keys (fun v => truncateJsonValues v options) o [] k).
    cbn. intuition.
  - intros k w H.
    apply (fold_obj_set_entries (fun v => truncateJsonValues v options) o [] (k, w))
      in H as [[]|H].
    exact H.
Qed.

Section JsonBudget.
Context {number : Type}.

Lemma keys_map_values {A B : Type} (g : A -> B) (o : props A) :
  keys (List.map (fun kv => (fst kv, g (snd kv))) o) = keys o.
Proof. unfold keys. rewrite map_map. reflexivity. Qed.

Lemma truncateJsonValues_plain (v : JValue number)
  (options : option TruncateOptions) :
  all_objects plain_keys v = true ->
  all_objects plain_keys (truncateJsonValues v options) = true.
Proof.
  induction v as [ | |b|n|s|l IH|o IH] using JValue_induction;
    intros Hall; try reflexivity.
  - cbn [truncateJsonValues all_objects] in *.
    induction l as [|x l IHl]; cbn in *; [reflexivity|].
    apply andb_true_iff in Hall as [Hx Hl]. inversion IH; subst.
    apply andb_true_iff. split; auto.
  - cbn [all_objects] in Hall. apply andb_true_iff in Hall as [Hk Hall].
    rewrite (truncateJsonValues_object o options Hk). cbn [all_objects].
    replace (keys (List.map (fun kv => (fst kv, truncateJsonValues (snd kv) options)) o))
      with (keys o)
      by (symmetry; apply (keys_map_values (fun x => truncateJsonValues x options))).
    rewrite Hk. cbn [andb]. clear Hk.
    induction o as [|kv o IHo]; cbn in *; [reflexivity|].
    apply andb_true_iff in Hall as [Hx Hl]. inversion IH; subst.
    apply andb_true_iff. split; auto.
Qed.

Lemma truncateJsonValues_leaves (v : JValue number)
  (options : option TruncateOptions) :
  28 <= resolve_maxStringLength options ->
  all_objects plain_keys v = true ->
  all_strings holdable v = true ->
  all_strings (within_budget (resolve_maxStringLength options))
    (truncateJsonValues v options) = true.
Proof.
  intros Hb.
  induction v as [ | |b|n|s|l IH|o IH] using JValue_induction;
    intros Hall Hstr; try reflexivity.
  - cbn [truncateJsonValues all_strings] in *. unfold within_budget, holdable in *.
    apply Z.ltb_lt in Hstr. apply Z.leb_le.
    rewrite truncateString_length_min by assumption. lia.
  - cbn [truncateJsonValues all_objects all_strings] in *.
    induction l as [|x l IHl]; cbn in *; [reflexivity|].
    apply andb_true_iff in Hall as [Hx Hl].
    apply andb_true_iff in Hstr as [Sx Sl]. inversion IH; subst.
    apply andb_true_iff. split; auto.
  - cbn [all_objects all_strings] in *. apply andb_true_iff in Hall as [Hk Hall].
    rewrite (truncateJsonValues_object o options Hk). cbn [all_strings]. clear Hk.
    induction o as [|kv o IHo]; cbn in *; [reflexivity|].
    apply andb_true_iff in Hall as [Hx Hl].
    apply andb_true_iff in Hstr as [Sx Sl]. inversion IH; subst.
    apply andb_true_iff. split; auto.
Qed.
End JsonBudget.

(** X8.  With a budget of at least 28, in a value whose mappings have no
    key ["__proto__"], every string leaf of the result is within the
    budget. *)
Theorem truncateJsonValues_leaves_within_budget {number : Type}
  (v : JValue number) (options : option TruncateOptions) :
  28 <= resolve_maxStringLength options ->
  all_objects plain_keys v = true ->
  all_strings holdable v = true ->
  all_strings (within_budget (resolve_maxStringLength options))
    (truncateJsonValues v options) = true.
Proof. exact (truncateJsonValues_leaves v options). Qed.

Lemma truncateJsonValues_leaves_within_budget_witness :
  28 <= resolve_maxStringLength None /\
  all_objects plain_keys nested_value = true /\
  all_strings holdable nested_value = true /\
  all_strings (within_budget 500) (truncateJsonValues nested_value None) = true.
Proof.
  assert (Hb : 28 <= resolve_maxStringLength None) by (vm_compute; discriminate).
  assert (Hk : all_objects plain_keys nested_value = true) by (vm_compute; reflexivity).
  assert (Hs : all_strings holdable nested_value = true) by (vm_compute; reflexivity).
  split; [exact Hb|]. split; [exact Hk|]. split; [exact Hs|].
  exact (truncateJsonValues_leaves_within_budget nested_value None Hb Hk Hs).
Defined.

(** X9.  Under the same conditions the walk is idempotent: walking its
    own result changes nothing. *)
Theorem truncateJsonValues_idempotent {number : Type}
  (v : JValue number) (options : option TruncateOptions) :
  28 <= resolve_maxStringLength options ->
  all_objects plain_keys v = true ->
  all_strings holdable v = true ->
  truncateJsonValues (truncateJsonValues v options) options
  = truncateJsonValues v options.
Proof.
  intros Hb Hk Hs. apply truncateJsonValues_unchanged.
  - now apply truncateJsonValues_plain.
  - now apply truncateJsonValues_leaves.
Qed.

Lemma truncateJsonValues_idempotent_witness :
  28 <= resolve_maxStringLength None /\
  all_objects plain_keys nested_value = true /\
  all_strings holdable nested_value = true /\
  truncateJsonValues (truncateJsonValues nested_value None) None
  = truncateJsonValues nested_value None.
Proof.
  assert (Hb : 28 <= resolve_maxStringLength None) by (vm_compute; discriminate).
  assert (Hk : all_objects plain_keys nested_value = true) by (vm_compute; reflexivity).
  assert (Hs : all_strings holdable nested_value = true) by (vm_compute; reflexivity).
  split; [exact Hb|]. split; [exact Hk|]. split; [exact Hs|].
  exact (truncateJsonValues_idempotent nested_value None Hb Hk Hs).
Defined.

(* ================================================================== *)
(** * isBase64Binary: what is accepted and what is not *)
(* ================================================================== *)

Lemma isBase64Binary_unfold (s : jsstring) :
  isBase64Binary s
  = if str_length s <? 100 then false
    else if negb (str_length (without_whitespace s) mod 4 =? 0) then false
    else if negb (existsb is_base64_mark (without_whitespace s)) then false
    else base64Pattern_test (firstn 1000 (without_whitespace s)).
Proof.
  unfold isBase64Binary, without_whitespace. cbv zeta.
  now rewrite slice_from_start by lia.
Qed.

Lemma In_drop_while (p : codeunit -> bool) (s : jsstring) (x : codeunit) :
  In x s -> p x = true \/ In x (drop_while p s).
Proof.
  induction s as [|c s IH]; cbn; [intros []|].
  intros [->|H].
  - destruct (p x) eqn:E; [now left|right; now left].
  - destruct (p c); [auto|]. right. now right.
Qed.

Lemma base64Pattern_test_units (t : jsstring) (x : codeunit) :
  base64Pattern_test t = true -> In x t ->
  is_base64_letter x = true \/ is_equals x = true.
Proof.
  unfold base64Pattern_test. destruct t as [|c t]; [discriminate|].
  intros H Hx. apply andb_true_iff in H as [_ H].
  destruct (In_drop_while is_base64_letter (c :: t) x Hx) as [Hl|Hd]; [now left|].
  right. rewrite forallb_forall in H. now apply H.
Qed.

Lemma forallb_drop_while (p q : codeunit -> bool) (s : jsstring) :
  forallb q s = true -> forallb q (drop_while p s) = true.
Proof.
  induction s as [|c s IH]; cbn; [trivial|].
  intros H. apply andb_true_iff in H as [Hc Hs].
  destruct (p c); [auto|]. cbn. now rewrite Hc, Hs.
Qed.

Lemma base64Pattern_test_app (letters pad : jsstring) :
  letters <> [] ->
  forallb is_base64_letter letters = true ->
  forallb is_equals pad = true ->
  base64Pattern_test (letters ++ pad) = true.
Proof.
  intros Hne Hl Hp. destruct letters as [|c l]; [contradiction|].
  unfold base64Pattern_test. change ((c :: l) ++ pad) with (c :: (l ++ pad)).
  cbn [drop_while]. cbn [forallb] in Hl.
  apply andb_true_iff in Hl as [Hc Hl]. rewrite Hc. cbn [andb].
  clear Hne Hc. induction l as [|d l IH]; cbn.
  - now apply forallb_drop_while.
  - cbn in Hl. apply andb_true_iff in Hl as [Hd Hl]. rewrite Hd. auto.
Qed.

Lemma forallb_firstn (p : codeunit -> bool) (n : nat) (s : jsstring) :
  forallb p s = true -> forallb p (firstn n s) = true.
Proof.
  rewrite !forallb_forall. intros H x Hx. apply H.
  rewrite <- (firstn_skipn n s). apply in_or_app. now left.
Qed.

Lemma without_whitespace_length (s : jsstring) :
  str_length (without_whitespace s) <= str_length s.
Proof.
  unfold str_length, without_whitespace.
  pose proof (filter_length_le (fun c => negb (is_whitespace c)) s). lia.
Qed.

(** X10.  A unit that is neither of the base64 alphabet nor an equals
    sign, among the first 1000 units that are not white space, rules
    binary out: a body that opens with a brace, a bracket, a quote or an
    angle bracket is never taken for base64. *)
Theorem isBase64Binary_foreign_unit (s : jsstring) (c : codeunit) :
  In c (firstn 1000 (without_whitespace s)) ->
  is_base64_letter c = false ->
  is_equals c = false ->
  isBase64Binary s = false.
Proof.
  intros Hin Hl He. rewrite isBase64Binary_unfold.
  destruct (str_length s <? 100); [reflexivity|].
  destruct (negb _); [reflexivity|].
  destruct (negb _); [reflexivity|].
  destruct (base64Pattern_test _) eqn:E; [|reflexivity].
  destruct (base64Pattern_test_units _ c E Hin); congruence.
Qed.

Lemma isBase64Binary_foreign_unit_witness :
  In 123%N (firstn 1000 (without_whitespace (lit "{" ++ btoa_x100 ++ lit "==="))) /\
  str_length (lit "{" ++ btoa_x100 ++ lit "===") mod 4 = 0 /\
  isBase64Binary (lit "{" ++ btoa_x100 ++ lit "===") = false.
Proof.
  assert (H : In 123%N
                (firstn 1000 (without_whitespace (lit "{" ++ btoa_x100 ++ lit "==="))))
    by (vm_compute; left; reflexivity).
  split; [exact H|]. split; [vm_compute; reflexivity|].
  apply (isBase64Binary_foreign_unit _ 123%N H); vm_compute; reflexivity.
Defined.

(** X11.  A text of at least 100 units is taken for base64 when, white
    space apart, it is a run of base64 letters followed by equals signs,
    four units to a block, with at least one of [+], [/] and [=]. *)
Theorem isBase64Binary_accepts (s letters pad : jsstring) :
  100 <= str_length s ->
  without_whitespace s = letters ++ pad ->
  letters <> [] ->
  forallb is_base64_letter letters = true ->
  forallb is_equals pad = true ->
  str_length (letters ++ pad) mod 4 = 0 ->
  existsb is_base64_mark (letters ++ pad) = true ->
  isBase64Binary s = true.
Proof.
  intros Hlen Hclean Hne Hl Hp Hmod Hmark. rewrite isBase64Binary_unfold, Hclean.
  destruct (Z.ltb_spec (str_length s) 100); [lia|].
  rewrite Hmod, Hmark. cbn [Z.eqb negb].
  rewrite firstn_app. apply base64Pattern_test_app.
  - destruct letters; [contradiction|discriminate].
  - now apply forallb_firstn.
  - now apply forallb_firstn.
Qed.

Lemma isBase64Binary_accepts_witness :
  100 <= str_length btoa_x100 /\
  without_whitespace btoa_x100 = btoa_x100_letters ++ lit "==" /\
  isBase64Binary btoa_x100 = true.
Proof.
  assert (H1 : 100 <= str_length btoa_x100) by (vm_compute; discriminate).
  assert (H2 : without_whitespace btoa_x100 = btoa_x100_letters ++ lit "==")
    by (vm_compute; reflexivity).
  split; [exact H1|]. split; [exact H2|].
  apply (isBase64Binary_accepts btoa_x100 btoa_x100_letters (lit "==") H1 H2).
  - discriminate.
  - vm_compute; reflexivity.
  - vm_compute; reflexivity.
  - vm_compute; reflexivity.
  - vm_compute; reflexivity.
Defined.

(** X12.  Only the first 1000 units that are not white space are
    checked against the alphabet: when they are base64 letters, the text
    is taken for base64 whatever follows them, given a length that is a
    multiple of four and one of [+], [/] and [=] somewhere. *)
Theorem isBase64Binary_sample_only (s sample rest : jsstring) :
  without_whitespace s = sample ++ rest ->
  List.length sample = 1000%nat ->
  forallb is_base64_letter sample = true ->
  str_length (sample ++ rest) mod 4 = 0 ->
  existsb is_base64_mark (sample ++ rest) = true ->
  isBase64Binary s = true.
Proof.
  intros Hclean Hn Hl Hmod Hmark. rewrite isBase64Binary_unfold.
  pose proof (without_whitespace_length s) as Hle. rewrite Hclean in *.
  rewrite str_length_app in Hle. unfold str_length in Hle at 1. rewrite Hn in Hle.
  pose proof (str_length_nonneg rest).
  destruct (Z.ltb_spec (str_length s) 100); [lia|].
  rewrite Hmod, Hmark. cbn [Z.eqb negb].
  rewrite firstn_app, Hn, Nat.sub_diag, firstn_all2 by lia.
  cbn [firstn]. apply base64Pattern_test_app; trivial.
  destruct sample; [discriminate|discriminate].
Qed.

Lemma isBase64Binary_sample_only_witness :
  without_whitespace plus_then_garbage = repeat 43%N 1000 ++ lit "<<<<" /\
  existsb (fun c => negb (is_base64_letter c || is_equals c)) plus_then_garbage = true /\
  isBase64Binary plus_then_garbage = true.
Proof.
  assert (H : without_whitespace plus_then_garbage = repeat 43%N 1000 ++ lit "<<<<")
    by (vm_compute; reflexivity).
  split; [exact H|]. split; [vm_compute; reflexivity|].
  apply (isBase64Binary_sample_only plus_then_garbage (repeat 43%N 1000) (lit "<<<<") H).
  - vm_compute; reflexivity.
  - vm_compute; reflexivity.
  - vm_compute; reflexivity.
  - vm_compute; reflexivity.
Defined.

(* ================================================================== *)
(** * formatBinarySize at the edge of a unit *)
(* ================================================================== *)

(** X13.  The unit is chosen before the rounding: the last 51 byte
    counts below 1024 * 1024 are still printed in KB, where they round
    up to [1024.0 KB]. *)
Theorem formatBinarySize_1024_KB (bytes : Z) :
  1048525 <= bytes < 1024 * 1024 ->
  formatBinarySize bytes = lit "[Binary data: 1024.0 KB]".
Proof.
  intros H. unfold formatBinarySize, toFixed1.
  destruct (Z.ltb_spec bytes 1024); [lia|].
  destruct (Z.ltb_spec bytes (1024 * 1024)); [|lia].
  destruct (Z.ltb_spec bytes 0); [lia|].
  rewrite Z.abs_eq by lia.
  assert (E : (2 * 10 * bytes + 1024) / (2 * 1024) = 10240).
  { symmetry. apply Z.div_unique with (r := 2 * 10 * bytes + 1024 - 2 * 1024 * 10240); lia. }
  rewrite E. reflexivity.
Qed.

Lemma formatBinarySize_1024_KB_witness :
  1048525 <= 1048575 < 1024 * 1024 /\
  formatBinarySize 1048575 = lit "[Binary data: 1024.0 KB]".
Proof.
  split; [lia|]. apply (formatBinarySize_1024_KB 1048575). lia.
Defined.

(* ================================================================== *)
(** * truncateResponseBody: the text and the untouched JSON *)
(* ================================================================== *)

(** X14.  A body that is not binary and does not parse as JSON comes
    back verbatim, reported as text and not truncated, when it is within
    the budget. *)
Theorem truncateResponseBody_text_verbatim {number : Type}
  (JSON_parse : jsstring -> option (JValue number))
  (JSON_stringify : JValue number -> option jsstring)
  (stack_suffices : JValue number -> bool)
  (body : jsstring) (options : option TruncateOptions) :
  isBase64Binary body = false ->
  JSON_parse body = None ->
  str_length body <= resolve_maxStringLength options ->
  truncateResponseBody JSON_parse JSON_stringify stack_suffices body false options
  = ResponseBody.mk body false (str_length body) Text.
Proof.
  intros Hbin Hparse Hlen. unfold truncateResponseBody, and_then.
  rewrite Hbin, Hparse. cbn [orb].
  now rewrite (truncateString_then body _ Hlen).
Qed.

Lemma truncateResponseBody_text_verbatim_witness :
  isBase64Binary (lit "hello world") = false /\
  parse_at short_value_body short_value (lit "hello world") = None /\
  str_length (lit "hello world") <= resolve_maxStringLength None /\
  truncateResponseBody (parse_at short_value_body short_value)
    stringify_integers stack_of_1000 (lit "hello world") false None
  = ResponseBody.mk (lit "hello world") false 11 Text.
Proof.
  assert (H1 : isBase64Binary (lit "hello world") = false) by (vm_compute; reflexivity).
  assert (H2 : parse_at short_value_body short_value (lit "hello world") = None)
    by (vm_compute; reflexivity).
  assert (H3 : str_length (lit "hello world") <= resolve_maxStringLength None)
    by (vm_compute; discriminate).
  split; [exact H1|]. split; [exact H2|]. split; [exact H3|].
  exact (truncateResponseBody_text_verbatim _ stringify_integers stack_of_1000
           (lit "hello world") None H1 H2 H3).
Defined.

(** X15.  A JSON body with nothing to truncate is not returned as it
    came: when the walk and the serialisation run to their end, the
    result is the serialisation of the parsed value, reported as JSON
    and not truncated, with the length of the raw body. *)
Theorem truncateResponseBody_json_reserialised {number : Type}
  (JSON_parse : jsstring -> option (JValue number))
  (JSON_stringify : JValue number -> option jsstring)
  (stack_suffices : JValue number -> bool)
  (body : jsstring) (options : option TruncateOptions) (parsed : JValue number)
  (formatted : jsstring) :
  isBase64Binary body = false ->
  JSON_parse body = Some parsed ->
  stack_suffices parsed = true ->
  JSON_stringify parsed = Some formatted ->
  all_objects plain_keys parsed = true ->
  all_strings (within_budget (resolve_maxStringLength options)) parsed = true ->
  truncateResponseBody JSON_parse JSON_stringify stack_suffices body false options
  = ResponseBody.mk formatted false (str_length body) Json.
Proof.
  intros Hbin Hparse Hstack Hformat Hkeys Hstr.
  unfold truncateResponseBody, and_then.
  rewrite Hbin, Hparse, Hstack. cbn [orb].
  rewrite (truncateJsonValues_unchanged parsed
             (Some (mkOptions (Some (resolve_maxStringLength options)))) Hkeys Hstr).
  rewrite Hformat. now rewrite Z.ltb_irrefl.
Qed.

Lemma truncateResponseBody_json_reserialised_witness :
  isBase64Binary short_value_body = false /\
  parse_at short_value_body short_value short_value_body = Some short_value /\
  stack_of_1000 short_value = true /\
  stringify_integers short_value = Some short_value_text /\
  all_objects plain_keys short_value = true /\
  all_strings (within_budget 500) short_value = true /\
  ResponseBody.body
    (truncateResponseBody (parse_at short_value_body short_value)
       stringify_integers stack_of_1000 short_value_body false None)
  = short_value_text /\
  short_value_text <> short_value_body.
Proof.
  assert (H1 : isBase64Binary short_value_body = false) by (vm_compute; reflexivity).
  assert (H2 : parse_at short_value_body short_value short_value_body
               = Some short_value) by (vm_compute; reflexivity).
  assert (Hs : stack_of_1000 short_value = true) by (vm_compute; reflexivity).
  assert (Hf : stringify_integers short_value = Some short_value_text)
    by (vm_compute; reflexivity).
  assert (H3 : all_objects plain_keys short_value = true) by (vm_compute; reflexivity).
  assert (H4 : all_strings (within_budget (resolve_maxStringLength None)) short_value
               = true) by (vm_compute; reflexivity).
  split; [exact H1|]. split; [exact H2|]. split; [exact Hs|]. split; [exact Hf|].
  split; [exact H3|]. split; [exact H4|].
  split.
  - rewrite (truncateResponseBody_json_reserialised _ stringify_integers stack_of_1000
               short_value_body None short_value short_value_text
               H1 H2 Hs Hf H3 H4).
    reflexivity.
  - vm_compute. discriminate.
Defined.

(** X16.  A body declared base64 of at most 1365 units is reported in
    bytes, with three quarters of its length rounded down as the
    count. *)
Theorem truncateResponseBody_binary_bytes {number : Type}
  (JSON_parse : jsstring -> option (JValue number))
  (JSON_stringify : JValue number -> option jsstring)
  (stack_suffices : JValue number -> bool)
  (body : jsstring) (options : option TruncateOptions) :
  str_length body <= 1365 ->
  ResponseBody.body
    (truncateResponseBody JSON_parse JSON_stringify stack_suffices body true options)
  = lit "[Binary data: " ++ Number_toString (str_length body * 3 / 4) ++ lit " B]".
Proof.
  intros H. unfold truncateResponseBody. cbn [orb ResponseBody.body].
  unfold formatBinarySize.
  destruct (Z.ltb_spec (str_length body * 3 / 4) 1024) as [|Hge]; [reflexivity|].
  exfalso.
  pose proof (Z.mul_div_le (str_length body * 3) 4 ltac:(lia)). lia.
Qed.

Lemma truncateResponseBody_binary_bytes_witness :
  str_length btoa_x100 <= 1365 /\
  ResponseBody.body
    (truncateResponseBody (parse_at short_value_body short_value)
       stringify_integers stack_of_1000 btoa_x100 true None)
  = lit "[Binary data: 102 B]".
Proof.
  assert (H : str_length btoa_x100 <= 1365) by (vm_compute; discriminate).
  split; [exact H|].
  rewrite (truncateResponseBody_binary_bytes _ stringify_integers stack_of_1000
             btoa_x100 None H).
  vm_compute. reflexivity.
Defined.

(* ================================================================== *)
(** * truncateNetworkEntry: short entries and the size of the fields *)
(* ================================================================== *)

Lemma truncate_if_truthy_short (field : option jsstring) (m : Z) :
  field_length field <= m -> truncate_if_truthy field m = field.
Proof.
  destruct field as [[|c s]|]; cbn [truncate_if_truthy field_length];
    intros H; try reflexivity.
  now rewrite (truncateString_then (c :: s) m H).
Qed.

Lemma truncate_if_truthy_length (field : option jsstring) (m : Z) :
  field_length field < 2 ^ 53 -> 28 <= m ->
  field_length (truncate_if_truthy field m) = Z.min (field_length field) m.
Proof.
  destruct field as [[|c s]|]; cbn [truncate_if_truthy field_length];
    intros H Hm.
  - cbn. lia.
  - now apply truncateString_length_min.
  - lia.
Qed.

(** X17.  An entry whose [url], [statusText] and [error] are within the
    budget is returned as it is. *)
Theorem truncateNetworkEntry_short {number : Type}
  (entry : NetworkEntryForTruncation number) (options : option TruncateOptions) :
  str_length (url entry) <= resolve_maxStringLength options ->
  field_length (statusText entry) <= resolve_maxStringLength options ->
  field_length (error entry) <= resolve_maxStringLength options ->
  truncateNetworkEntry entry options = entry.
Proof.
  intros Hu Hs He. destruct entry. unfold truncateNetworkEntry.
  cbn [requestId method url status statusText mimeType resourceType
       timestamp completed error] in *.
  now rewrite (truncateString_then _ _ Hu), !truncate_if_truthy_short.
Qed.

Lemma truncateNetworkEntry_short_witness :
  str_length (url ok_entry) <= 500 /\
  field_length (statusText ok_entry) <= 500 /\
  field_length (error ok_entry) <= 500 /\
  truncateNetworkEntry ok_entry None = ok_entry.
Proof.
  assert (H1 : str_length (url ok_entry) <= resolve_maxStringLength None)
    by (vm_compute; discriminate).
  assert (H2 : field_length (statusText ok_entry) <= resolve_maxStringLength None)
    by (vm_compute; discriminate).
  assert (H3 : field_length (error ok_entry) <= resolve_maxStringLength None)
    by (vm_compute; discriminate).
  split; [exact H1|]. split; [exact H2|]. split; [exact H3|].
  exact (truncateNetworkEntry_short ok_entry None H1 H2 H3).
Defined.

(** X18.  With a budget [b] of at least 28 the three text fields of the
    result have [min(length, b)] units each: none exceeds the budget. *)
Theorem truncateNetworkEntry_field_lengths {number : Type}
  (entry : NetworkEntryForTruncation number) (options : option TruncateOptions) :
  let b := resolve_maxStringLength options in
  let out := truncateNetworkEntry entry options in
  28 <= b ->
  str_length (url entry) < 2 ^ 53 ->
  field_length (statusText entry) < 2 ^ 53 ->
  field_length (error entry) < 2 ^ 53 ->
  str_length (url out) = Z.min (str_length (url entry)) b /\
  field_length (statusText out) = Z.min (field_length (statusText entry)) b /\
  field_length (error out) = Z.min (field_length (error entry)) b.
Proof.
  intros b out Hb Hu Hs He. subst out. cbn [truncateNetworkEntry url statusText error].
  fold b. repeat split.
  - now apply truncateString_length_min.
  - now apply truncate_if_truthy_length.
  - now apply truncate_if_truthy_length.
Qed.

Lemma truncateNetworkEntry_field_lengths_witness :
  28 <= 100 /\
  str_length (url ok_entry) < 2 ^ 53 /\
  str_length (url (truncateNetworkEntry ok_entry (Some (mkOptions (Some 100)))))
  = Z.min (str_length (url ok_entry)) 100.
Proof.
  split; [lia|]. split; [vm_compute; reflexivity|].
  apply (truncateNetworkEntry_field_lengths ok_entry (Some (mkOptions (Some 100))));
    vm_compute; try reflexivity; discriminate.
Defined.

(* ================================================================== *)
(** * truncateHeaders: names, values and sizes *)
(* ================================================================== *)

Lemma truncateHeaders_entries (headers : props jsstring)
  (options : option TruncateOptions) (k w : jsstring) :
  In (k, w) (truncateHeaders headers options) ->
  exists v, In (k, v) headers /\
            w = TruncateResult.value
                  (truncateString v (resolve_maxStringLength options)).
Proof.
  intros H. unfold truncateHeaders in H.
  apply (fold_obj_set_entries
           (fun v => TruncateResult.value
                       (truncateString v (resolve_maxStringLength options)))
           headers [] (k, w)) in H as [[]|H].
  exact H.
Qed.

(** X19.  Whatever the header map, the result has exactly its names
    other than [__proto__], and every header of the result carries the
    truncation of a value the input had under the same name: no name and
    no value is made up. *)
Theorem truncateHeaders_names_and_values (headers : props jsstring)
  (options : option TruncateOptions) :
  (forall k, In k (keys (truncateHeaders headers options))
             <-> In k (keys headers) /\ k <> proto_key) /\
  (forall k w, In (k, w) (truncateHeaders headers options) ->
     exists v, In (k, v) headers /\
               w = TruncateResult.value
                     (truncateString v (resolve_maxStringLength options))).
Proof.
  split.
  - intros k. unfold truncateHeaders.
    rewrite (fold_obj_set_keys
               (fun v => TruncateResult.value
                           (truncateString v (resolve_maxStringLength options)))
               headers [] k).
    cbn. intuition.
  - intros k w. apply truncateHeaders_entries.
Qed.

(** X20.  With a budget of at least 28 no header value of the result
    exceeds the budget, whatever the header map. *)
Theorem truncateHeaders_values_within_budget (headers : props jsstring)
  (options : option TruncateOptions) :
  28 <= resolve_maxStringLength options ->
  (forall k v, In (k, v) headers -> str_length v < 2 ^ 53) ->
  forall k w, In (k, w) (truncateHeaders headers options) ->
              str_length w <= resolve_maxStringLength options.
Proof.
  intros Hb Hsize k w H.
  apply truncateHeaders_entries in H as (v & Hv & ->).
  rewrite truncateString_length_min; [lia| |exact Hb].
  exact (Hsize k v Hv).
Qed.

Lemma truncateHeaders_values_within_budget_witness :
  28 <= 100 /\
  In (lit "x-long", a_repeat 85 ++ lit "...[+900 chars]")
    (truncateHeaders [(lit "x-long", a_repeat 1000)]
       (Some (mkOptions (Some 100)))) /\
  str_length (a_repeat 85 ++ lit "...[+900 chars]") <= 100.
Proof.
  assert (Hin : In (lit "x-long", a_repeat 85 ++ lit "...[+900 chars]")
                  (truncateHeaders [(lit "x-long", a_repeat 1000)]
                     (Some (mkOptions (Some 100)))))
    by (vm_compute; left; reflexivity).
  split; [lia|]. split; [exact Hin|].
  apply (truncateHeaders_values_within_budget [(lit "x-long", a_repeat 1000)]
           (Some (mkOptions (Some 100))) ltac:(cbn; lia)) with (k := lit "x-long").
  - intros k v [E|[]]. injection E as _ <-. vm_compute. reflexivity.
  - exact Hin.
Defined.

Lemma map_values_id (h : props jsstring) (g : jsstring -> jsstring) :
  Forall (fun kv => g (snd kv) = snd kv) h ->
  List.map (fun kv => (fst kv, g (snd kv))) h = h.
Proof.
  induction 1 as [|[k v] h Hx _ IH]; cbn in *; [reflexivity|].
  now rewrite Hx, IH.
Qed.

(** X21.  A header map without a header named [__proto__] whose values
    are all within the budget is returned as it is. *)
Theorem truncateHeaders_short (headers : props jsstring)
  (options : option TruncateOptions) :
  plain_keys (keys headers) = true ->
  forallb (fun kv => within_budget (resolve_maxStringLength options) (snd kv))
    headers = true ->
  truncateHeaders headers options = headers.
Proof.
  intros Hk Hv. unfold truncateHeaders.
  rewrite (fold_obj_set_map
             (fun v => TruncateResult.value
                         (truncateString v (resolve_maxStringLength options)))
             headers Hk).
  apply (map_values_id headers
           (fun v => TruncateResult.value
                       (truncateString v (resolve_maxStringLength options)))).
  apply Forall_forall. intros kv Hin.
  rewrite forallb_forall in Hv. specialize (Hv kv Hin).
  unfold within_budget in Hv. apply Z.leb_le in Hv.
  now rewrite (truncateString_then _ _ Hv).
Qed.

Lemma truncateHeaders_short_witness :
  plain_keys (keys [(lit "Content-Type", lit "application/json");
                    (lit "Accept", lit "*/*")]) = true /\
  truncateHeaders [(lit "Content-Type", lit "application/json");
                   (lit "Accept", lit "*/*")] None
  = [(lit "Content-Type", lit "application/json"); (lit "Accept", lit "*/*")].
Proof.
  assert (Hk : plain_keys (keys [(lit "Content-Type", lit "application/json");
                                 (lit "Accept", lit "*/*")]) = true)
    by (vm_compute; reflexivity).
  split; [exact Hk|].
  apply (truncateHeaders_short _ None Hk). vm_compute. reflexivity.
Defined.

(** X22.  On header maps without a header named [__proto__], with a
    budget of at least 28, truncating the headers twice is truncating
    them once. *)
Theorem truncateHeaders_idempotent (headers : props jsstring)
  (options : option TruncateOptions) :
  28 <= resolve_maxStringLength options ->
  plain_keys (keys headers) = true ->
  (forall k v, In (k, v) headers -> str_length v < 2 ^ 53) ->
  truncateHeaders (truncateHeaders headers options) options
  = truncateHeaders headers options.
Proof.
  intros Hb Hk Hsize.
  destruct (truncateHeaders_plain headers options Hk) as [_ Hkeys].
  unfold truncateHeaders at 1.
  rewrite (fold_obj_set_map
             (fun v => TruncateResult.value
                         (truncateString v (resolve_maxStringLength options)))
             (truncateHeaders headers options)) by (now rewrite Hkeys).
  apply (map_values_id (truncateHeaders headers options)
           (fun v => TruncateResult.value
                       (truncateString v (resolve_maxStringLength options)))).
  apply Forall_forall. intros [k w] Hin. cbn [snd].
  apply truncateHeaders_entries in Hin as (v & Hv & ->).
  rewrite truncateString_then; [reflexivity|].
  rewrite truncateString_length_min; [lia| |exact Hb].
  exact (Hsize k v Hv).
Qed.

Lemma truncateHeaders_idempotent_witness :
  28 <= 100 /\
  plain_keys (keys [(lit "x-long", a_repeat 1000)]) = true /\
  truncateHeaders
    (truncateHeaders [(lit "x-long", a_repeat 1000)] (Some (mkOptions (Some 100))))
    (Some (mkOptions (Some 100)))
  = truncateHeaders [(lit "x-long", a_repeat 1000)] (Some (mkOptions (Some 100))).
Proof.
  assert (Hk : plain_keys (keys [(lit "x-long", a_repeat 1000)]) = true)
    by (vm_compute; reflexivity).
  split; [lia|]. split; [exact Hk|].
  apply (truncateHeaders_idempotent [(lit "x-long", a_repeat 1000)]
           (Some (mkOptions (Some 100))) ltac:(cbn; lia) Hk).
  intros k v [E|[]]. injection E as _ <-. vm_compute. reflexivity.
Defined.

(* ================================================================== *)
(** * Shape preservation away from the key [__proto__] *)
(* ================================================================== *)

(** X23.  On every value whose mappings have no key ["__proto__"] the
    walk returns a value of the same shape: each mapping with the same
    keys in the same order, each sequence with the same length and
    order, each [null], boolean and number as it was, and each string
    leaf replaced by its truncation. *)
Theorem truncateJsonValues_shape {number : Type} (v : JValue number)
  (options : option TruncateOptions) :
  all_objects plain_keys v = true ->
  truncation_of (resolve_maxStringLength options) v (truncateJsonValues v options).
Proof. exact (truncateJsonValues_truncation_of v options). Qed.

Lemma truncateJsonValues_shape_witness :
  all_objects plain_keys nested_value = true /\
  truncation_of 500 nested_value (truncateJsonValues nested_value None).
Proof.
  assert (Hk : all_objects plain_keys nested_value = true) by (vm_compute; reflexivity).
  split; [exact Hk|].
  exact (truncateJsonValues_shape nested_value None Hk).
Defined.

(** X24.  On every header map without a header named [__proto__] the
    result has the same names in the same order, and under each name the
    truncation of the value it had. *)
Theorem truncateHeaders_names_in_order (headers : props jsstring)
  (options : option TruncateOptions) :
  plain_keys (keys headers) = true ->
  keys (truncateHeaders headers options) = keys headers /\
  headers_truncation_of (resolve_maxStringLength options) headers
    (truncateHeaders headers options).
Proof.
  intros H. destruct (truncateHeaders_plain headers options H) as [Ht Hk].
  now split.
Qed.

Lemma truncateHeaders_names_in_order_witness :
  plain_keys (keys [(lit "Content-Type", lit "application/json");
                    (lit "X-Long-Header", a_repeat 1000)]) = true /\
  keys (truncateHeaders [(lit "Content-Type", lit "application/json");
                         (lit "X-Long-Header", a_repeat 1000)]
          (Some (mkOptions (Some 100))))
  = [lit "Content-Type"; lit "X-Long-Header"].
Proof.
  assert (Hk : plain_keys (keys [(lit "Content-Type", lit "application/json");
                                 (lit "X-Long-Header", a_repeat 1000)]) = true)
    by (vm_compute; reflexivity).
  split; [exact Hk|].
  exact (proj1 (truncateHeaders_names_in_order _ (Some (mkOptions (Some 100))) Hk)).
Defined.

(* ================================================================== *)
(** * truncateResponseBody: what the catch swallows *)
(* ================================================================== *)

(** X25.  The [catch] takes every exception of the [try] block, not
    only the one of [JSON.parse]: a body that parses as JSON is handed
    to [truncateString] and reported as text when the walk exhausts the
    call stack or a serialisation throws. *)
Theorem truncateResponseBody_exception_to_text {number : Type}
  (JSON_parse : jsstring -> option (JValue number))
  (JSON_stringify : JValue number -> option jsstring)
  (stack_suffices : JValue number -> bool)
  (body : jsstring) (options : option TruncateOptions) (parsed : JValue number) :
  isBase64Binary body = false ->
  JSON_parse body = Some parsed ->
  let m := resolve_maxStringLength options in
  stack_suffices parsed = false \/
  JSON_stringify (truncateJsonValues parsed (Some (mkOptions (Some m)))) = None \/
  JSON_stringify parsed = None ->
  truncateResponseBody JSON_parse JSON_stringify stack_suffices body false options
  = ResponseBody.mk (TruncateResult.value (truncateString body m))
      (TruncateResult.truncated (truncateString body m))
      (str_length body) Text.
Proof.
  intros Hbin Hparse m Hthrow.
  assert (Hlen : TruncateResult.originalLength (truncateString body m)
                 = str_length body).
  { unfold truncateString. destruct (str_length body <=? m); reflexivity. }
  unfold truncateResponseBody, and_then. rewrite Hbin, Hparse. cbn [orb]. fold m.
  rewrite Hlen.
  destruct (stack_suffices parsed); [|reflexivity].
  destruct (JSON_stringify (truncateJsonValues parsed _)) as [truncatedBody|];
    [|reflexivity].
  destruct (JSON_stringify parsed) as [originalFormatted|]; [|reflexivity].
  destruct Hthrow as [H|[H|H]]; discriminate H.
Qed.

Lemma truncateResponseBody_exception_to_text_witness :
  isBase64Binary deep_body = false /\
  parse_at deep_body deep_value deep_body = Some deep_value /\
  stack_of_1000 deep_value = false /\
  let r := truncateResponseBody (parse_at deep_body deep_value)
             stringify_integers stack_of_1000 deep_body false None in
  ResponseBody.type r = Text /\ ResponseBody.truncated r = true /\
  ResponseBody.originalLength r = 10000.
Proof.
  assert (H1 : isBase64Binary deep_body = false) by (vm_compute; reflexivity).
  assert (H2 : parse_at deep_body deep_value deep_body = Some deep_value)
    by (vm_compute; reflexivity).
  assert (H3 : stack_of_1000 deep_value = false) by (vm_compute; reflexivity).
  split; [exact H1|]. split; [exact H2|]. split; [exact H3|].
  cbv zeta.
  rewrite (truncateResponseBody_exception_to_text (parse_at deep_body deep_value)
             stringify_integers stack_of_1000 deep_body None deep_value H1 H2
             (or_introl H3)).
  cbn [ResponseBody.type ResponseBody.truncated ResponseBody.originalLength].
  split; [reflexivity|]. split; vm_compute; reflexivity.
Defined.
